(** * Remote-Matrix: the content model of [remote_matrix.py] and its [flatten] contract

    A shallow embedding of the Python module [src/remote_matrix.py]:
    the classes [Color], [Location], the [ContentPiece] hierarchy,
    [Frame] and [MatrixContent], with the values that [flatten] builds
    (Python dicts, lists, strings and numbers) and the exceptions the
    code can raise.  Each Python class is a Rocq module of the same
    name; [__init__] is [init] and the methods keep their names. *)

From Stdlib Require Import Ascii HexString PrimFloat.
From stdpp Require Import gmap strings list fin_maps sorting.

Open Scope Z_scope.

(** ** Python values and exceptions *)

(** The exceptions that the modelled code can raise. *)
Inductive exn := IndexError | ValueError | TypeError.

(** The outcome of a Python expression: a value or a raised exception. *)
Inductive result (A : Type) :=
| Ok (a : A)
| Raise (e : exn).
Arguments Ok {A} a.
Arguments Raise {A} e.

#[global] Instance result_ret : MRet result := λ A a, Ok a.
#[global] Instance result_bind : MBind result := λ A B f m,
  match m with Ok a => f a | Raise e => Raise e end.
#[global] Instance result_fmap : FMap result := λ A B f m,
  match m with Ok a => Ok (f a) | Raise e => Raise e end.

(** [[f(x) for x in l]] where [f] may raise: the first exception wins. *)
Fixpoint for_each {A B} (f : A → result B) (l : list A) : result (list B) :=
  match l with
  | [] => Ok []
  | a :: l' => b ← f a; bs ← for_each f l'; Ok (b :: bs)
  end.

(** A Python number: [int] or [float] ([Frame.duration] is either). *)
Inductive number :=
| NInt (n : Z)
| NFloat (f : float).

#[local] Set Warnings "-register-all".

(** The JSON-representable values that [flatten] returns.  A dict keeps
    its insertion order, as Python's does. *)
Inductive value :=
| Str (s : string)
| Num (n : number)
| Bool (b : bool)
| List (l : list value)
| Dict (d : list (string * value)).

Abbreviation dict := (list (string * value)).
Abbreviation Int n := (Num (NInt n)).

(** [d[k] = v]: an existing key keeps its position and takes the new
    value, a new key goes to the end. *)
Fixpoint dict_set (k : string) (v : value) (d : dict) : dict :=
  match d with
  | [] => [(k, v)]
  | (k', v') :: d' =>
      if String.eqb k k' then (k', v) :: d' else (k', v') :: dict_set k v d'
  end.

(** [d.update(d2)], which is also what [**d2] does in a dict display. *)
Definition dict_update (d d2 : dict) : dict :=
  fold_left (λ acc kv, dict_set kv.1 kv.2 acc) d2 d.

(** A dict display [{k1: v1, ..., kn: vn}], entries inserted left to right. *)
Definition mkdict (entries : dict) : dict := dict_update [] entries.

(** [d.get(k)] *)
Fixpoint dict_get (k : string) (d : dict) : option value :=
  match d with
  | [] => None
  | (k', v) :: d' => if String.eqb k k' then Some v else dict_get k d'
  end.

(** [list(d.keys())] *)
Definition dict_keys (d : dict) : list string := d.*1.

(** A dict seen as a mapping: key order forgotten. *)
Definition as_map (d : dict) : gmap string value := list_to_map d.

(** [l[i]] on a Python list: a negative index counts from the end, and
    an index outside [-len(l) .. len(l)-1] raises IndexError. *)
Definition getitem {A} (l : list A) (i : Z) : result A :=
  let n := Z.of_nat (length l) in
  let j := if bool_decide (i < 0) then i + n else i in
  if bool_decide (0 ≤ j < n) then
    match l !! Z.to_nat j with Some a => Ok a | None => Raise IndexError end
  else Raise IndexError.

(** A Python object with its identity [oid], the value of [id(o)]:
    classes that define no [__eq__] compare by identity. *)
Record object (A : Type) := Object { oid : nat; state : A }.
Arguments Object {A} oid state.
Arguments oid {A} o.
Arguments state {A} o.

(** [a == b] for objects of a class without [__eq__]. *)
Definition same_object {A} (a b : object A) : bool := Nat.eqb (oid a) (oid b).

(** [object.__new__]: the allocator hands out the next free identity. *)
Definition alloc {A} (a : A) (next : nat) : object A * nat :=
  (Object next a, S next).

(** ** Color *)

(** [format(n, "x")] for [n >= 0]: lowercase hexadecimal digits. *)
Definition hex_digits (n : Z) : string :=
  match n with
  | Z0 => "0"
  | Zpos p => HexString.Raw.of_pos p ""
  | Zneg p => HexString.Raw.of_pos p ""
  end.

(** [f"{n:02x}"]: zero-padded to two characters, the sign included. *)
Definition format_02x (n : Z) : string :=
  if bool_decide (n < 0) then "-" +:+ hex_digits n
  else
    let s := hex_digits n in
    if bool_decide (String.length s < 2)%nat then "0" +:+ s else s.

Module Color.
Record t := Color { r : Z; g : Z; b : Z }.

Definition init (r g b : Z) : t := Color r g b.

Definition hex (self : t) : string :=
  "#" +:+ format_02x (r self) +:+ format_02x (g self) +:+ format_02x (b self).

Definition flatten (self : t) : dict :=
  mkdict [("color", Str (hex self))].

(** The data model's range: every component fits in 8 bits. *)
Definition valid (self : t) : Prop :=
  0 ≤ r self ≤ 255 ∧ 0 ≤ g self ≤ 255 ∧ 0 ≤ b self ≤ 255.
End Color.

(** ** Location *)

Module Location.
Record t := Location { x : Z; y : Z }.

Definition init (x y : Z) : t := Location x y.

Definition flatten (self : t) : dict :=
  mkdict [("x", Int (x self)); ("y", Int (y self))].
End Location.

(** What a [ContentPiece] attribute can hold.  Python does not check the
    annotations [color: Color] and [location: Location], so either
    attribute holds whichever object the constructor was handed. *)
Inductive flattenable :=
| OColor (c : Color.t)
| OLocation (l : Location.t).

(** [o.flatten()], dispatched on the class of [o]. *)
Definition flatten_attr (o : flattenable) : dict :=
  match o with
  | OColor c => Color.flatten c
  | OLocation l => Location.flatten l
  end.

(** ** ContentPiece and its variants *)

Module ContentPiece.
Record t := ContentPiece { color : flattenable; location : flattenable }.

(** [__init__(self, location=None, color=None)] *)
Definition init (location color : option flattenable) : t :=
  {| color := default (OColor (Color.init 255 255 255)) color;
     location := default (OLocation (Location.init 0 0)) location |}.

(** [{**self.color.flatten(), **self.location.flatten()}] *)
Definition flatten (self : t) : dict :=
  dict_update (dict_update [] (flatten_attr (color self)))
              (flatten_attr (location self)).
End ContentPiece.

Module Text.
Record t := Text { base : ContentPiece.t; text : string }.

Definition init (text : string) (location : option Location.t)
    (color : option Color.t) : t :=
  {| base := ContentPiece.init (OLocation <$> location) (OColor <$> color);
     text := text |}.

Definition flatten (self : t) : dict :=
  dict_update (mkdict [("type", Str "text"); ("text", Str (text self))])
              (ContentPiece.flatten (base self)).
End Text.

Module Circle.
Record t := Circle { base : ContentPiece.t; radius : Z; fill : bool }.

(** [fill] defaults to [True]. *)
Definition init (radius : Z) (fill : option bool)
    (location : option Location.t) (color : option Color.t) : t :=
  {| base := ContentPiece.init (OLocation <$> location) (OColor <$> color);
     fill := default true fill;
     radius := radius |}.

Definition flatten (self : t) : dict :=
  dict_update (mkdict [("type", Str "circle"); ("radius", Int (radius self));
                       ("fill", Bool (fill self))])
              (ContentPiece.flatten (base self)).
End Circle.

Module Pixel.
Record t := Pixel { base : ContentPiece.t }.

Definition init (location : option Location.t) (color : option Color.t) : t :=
  {| base := ContentPiece.init (OLocation <$> location) (OColor <$> color) |}.

Definition flatten (self : t) : dict :=
  dict_update (mkdict [("type", Str "pixel")])
              (ContentPiece.flatten (base self)).
End Pixel.

Module Triangle.
Record t := Triangle {
  base : ContentPiece.t;
  p1 : Location.t; p2 : Location.t; p3 : Location.t;
  fill : bool }.

(** [super().__init__(None, color)] *)
Definition init (p1 p2 p3 : Location.t) (fill : option bool)
    (color : option Color.t) : t :=
  {| base := ContentPiece.init None (OColor <$> color);
     p1 := p1; p2 := p2; p3 := p3;
     fill := default true fill |}.

Definition flatten (self : t) : dict :=
  mkdict [("type", Str "triangle");
          ("p1", Dict (Location.flatten (p1 self)));
          ("p2", Dict (Location.flatten (p2 self)));
          ("p3", Dict (Location.flatten (p3 self)));
          ("color", Dict (flatten_attr (ContentPiece.color (base self))))].
End Triangle.

Module Rectangle.
Record t := Rectangle {
  base : ContentPiece.t; width : Z; height : Z; fill : bool }.

(** The source calls [super().__init__(color, location)]: the color is
    passed in the position of the base class's [location] parameter
    and the location in the position of its [color] parameter. *)
Definition init (width height : Z) (fill : option bool)
    (location : option Location.t) (color : option Color.t) : t :=
  {| base := ContentPiece.init (OColor <$> color) (OLocation <$> location);
     width := width;
     height := height;
     fill := default true fill |}.

Definition flatten (self : t) : dict :=
  dict_update (mkdict [("type", Str "rect"); ("width", Int (width self));
                       ("height", Int (height self));
                       ("fill", Bool (fill self))])
              (ContentPiece.flatten (base self)).
End Rectangle.

Module Line.
Record t := Line { base : ContentPiece.t; end_location : Location.t }.

Definition init (start_location end_location : option Location.t)
    (color : option Color.t) : t :=
  {| base := ContentPiece.init (OLocation <$> start_location)
                               (OColor <$> color);
     end_location := default (Location.init 0 0) end_location |}.

Definition flatten (self : t) : dict :=
  dict_update (mkdict [("type", Str "line");
                       ("end_location",
                        Dict (Location.flatten (end_location self)))])
              (ContentPiece.flatten (base self)).
End Line.

(** ** The decoded bitmap (PIL) *)

(** The part of Pillow's [Image] class that the module uses, for an
    image in mode "RGB" (the constructor converts to it). *)
Module PILImage.
(** A pixel of an "RGB" image: the tuple [(r, g, b)]. *)
Definition pixel : Type := Z * Z * Z.

(** [size] is [(width, height)]; [getdata] is the pixels, row by row. *)
Record t := PILImage { size : Z * Z; getdata : list pixel }.

(** What every decoded "RGB" image satisfies: [width * height] pixels,
    each band in [0, 255]. *)
Definition valid (im : t) : Prop :=
  0 ≤ (size im).1 ∧ 0 ≤ (size im).2 ∧
  Z.of_nat (length (getdata im)) = (size im).1 * (size im).2 ∧
  Forall (λ p : pixel, 0 ≤ p.1.1 ≤ 255 ∧ 0 ≤ p.1.2 ≤ 255 ∧ 0 ≤ p.2 ≤ 255)
         (getdata im).

(** One more occurrence of [c] in a table of [(count, color)]. *)
Fixpoint count_color (c : pixel) (h : list (Z * pixel)) : list (Z * pixel) :=
  match h with
  | [] => [(1, c)]
  | (n, c') :: h' =>
      if decide (c = c') then (n + 1, c') :: h' else (n, c') :: count_color c h'
  end.

(** The distinct colors of the image with their occurrence counts, in
    the order of their first occurrence. *)
Definition histogram (data : list pixel) : list (Z * pixel) :=
  fold_left (λ h c, count_color c h) data [].

Section getcolors.
(** Pillow documents the result of [getcolors] as "an unsorted list
    of (count, pixel) values": its order is an artefact of Pillow's
    hash table.  [arrange] stands for that order. *)
Variable arrange : list (Z * pixel) → list (Z * pixel).

(** [Image.getcolors(maxcolors=256)]: "If the maxcolors value is
    exceeded, this method returns None."  The module always calls it
    with the default limit. *)
Definition getcolors (im : t) : option (list (Z * pixel)) :=
  let h := histogram (getdata im) in
  if bool_decide (256 < length h)%nat then None else Some (arrange h).
End getcolors.
End PILImage.

(** [len(o)] where [o] may be [None]: [len(None)] raises TypeError. *)
Definition len {A} (o : option (list A)) : result Z :=
  match o with
  | Some l => Ok (Z.of_nat (length l))
  | None => Raise TypeError
  end.

(** [list(o)] where [o] may be [None]: [list(None)] raises TypeError. *)
Definition list_of {A} (o : option (list A)) : result (list A) :=
  match o with
  | Some l => Ok l
  | None => Raise TypeError
  end.

(** [l.index(x)]: the first position of [x], ValueError when absent. *)
Fixpoint index `{EqDecision A} (x : A) (l : list A) : result Z :=
  match l with
  | [] => Raise ValueError
  | y :: l' => if decide (y = x) then Ok 0 else Z.succ <$> index x l'
  end.

(** One step of a stable sort by descending count: [x] stood before
    every element of [l] and stays before those of the same count. *)
Fixpoint insert_by_count {A} (x : Z * A) (l : list (Z * A)) : list (Z * A) :=
  match l with
  | [] => [x]
  | y :: l' =>
      if bool_decide (x.1 < y.1) then y :: insert_by_count x l' else x :: y :: l'
  end.

(** [l.sort(key=lambda x: x[0], reverse=True)].  Python's sort is
    stable, also with [reverse=True]; a stable sort has one possible
    result, which insertion from the right computes. *)
Definition sort_by_count {A} (l : list (Z * A)) : list (Z * A) :=
  foldr insert_by_count [] l.

Module Image.
Record t := Image { base : ContentPiece.t; image : PILImage.t }.

(** [__init__(self, filename, location=None)]; [image] is what
    [PILImage.open(filename).convert("RGB")] returned. *)
Definition init (image : PILImage.t) (location : option Location.t) : t :=
  {| base := ContentPiece.init (OLocation <$> location) None;
     image := image |}.

(** The hex code of each pixel of a list, that of the [Color] built
    from the pixel's three bands. *)
Definition hex_of (pixels : list PILImage.pixel) : list value :=
  (λ p : PILImage.pixel, Str (Color.hex (Color.init p.1.1 p.1.2 p.2)))
    <$> pixels.

Section flatten.
Variable arrange : list (Z * PILImage.pixel) → list (Z * PILImage.pixel).

(** The branch "use colors as a list, reference them". *)
Definition flatten_palette (self : t) : result dict :=
  let '(width, height) := PILImage.size (image self) in
  colors ← list_of (PILImage.getcolors arrange (image self));
  let colors := sort_by_count colors in
  let colors := colors.*2 in
  pixels ← for_each (λ pixel, index pixel colors)
                    (PILImage.getdata (image self));
  Ok (mkdict [("type", Str "image"); ("width", Int width);
              ("height", Int height);
              ("colors", List (hex_of colors));
              ("pixels", List ((λ i, Int i) <$> pixels));
              ("location",
               Dict (flatten_attr (ContentPiece.location (base self))))]).

(** The branch "encode as list of pixels". *)
Definition flatten_raw (self : t) : result dict :=
  let '(width, height) := PILImage.size (image self) in
  Ok (mkdict [("type", Str "image"); ("width", Int width);
              ("height", Int height);
              ("pixels", List (hex_of (PILImage.getdata (image self))))]).

(** The test is [n < 10 or n < size[0] * size[1] / 2] with
    [n = len(self.image.getcolors())], evaluated anew on each side
    of [or].  [/] is true division; [n] is at most 256 when [len]
    returns, so comparing [n] with the float quotient is comparing
    [2 * n] with the integer product. *)
Definition flatten (self : t) : result dict :=
  n ← len (PILImage.getcolors arrange (image self));
  if bool_decide (n < 10) then flatten_palette self
  else
    n' ← len (PILImage.getcolors arrange (image self));
    let size := PILImage.size (image self) in
    if bool_decide (2 * n' < size.1 * size.2) then flatten_palette self
    else flatten_raw self.
End flatten.
End Image.

(** ** Frames and matrix contents *)

(** An instance of one of the concrete [ContentPiece] classes. *)
Inductive content_piece :=
| APixel (p : Pixel.t)
| AText (p : Text.t)
| ACircle (p : Circle.t)
| ARectangle (p : Rectangle.t)
| ATriangle (p : Triangle.t)
| ALine (p : Line.t)
| AnImage (p : Image.t).

(** [l.remove(x)]: deletes the first item equal to [x]; [None] stands
    for the ValueError raised when there is none (the list is then left
    as it was). *)
Fixpoint list_remove {A} (eqb : A → A → bool) (x : A) (l : list A)
    : option (list A) :=
  match l with
  | [] => None
  | y :: l' => if eqb y x then Some l' else (y ::.) <$> list_remove eqb x l'
  end.

Module Frame.
Record t := Frame {
  elements : list (object content_piece);
  duration : number }.

(** [__init__(self, elements=None, duration=0)] *)
Definition init (elements : option (list (object content_piece)))
    (duration : option number) : t :=
  {| elements := default [] elements;
     duration := default (NInt 0) duration |}.

Definition add (self : t) (element : object content_piece) : t :=
  {| elements := elements self ++ [element]; duration := duration self |}.

(** The frame after the call, and what the call returned or raised. *)
Definition remove (self : t) (element : object content_piece)
    : t * result unit :=
  match list_remove same_object element (elements self) with
  | Some l => ({| elements := l; duration := duration self |}, Ok ())
  | None => (self, Raise ValueError)
  end.

Section flatten.
Variable arrange : list (Z * PILImage.pixel) → list (Z * PILImage.pixel).

(** [element.flatten()], dispatched on the class of the element. *)
Definition flatten_element (element : object content_piece) : result value :=
  Dict <$>
    match state element with
    | APixel p => Ok (Pixel.flatten p)
    | AText p => Ok (Text.flatten p)
    | ACircle p => Ok (Circle.flatten p)
    | ARectangle p => Ok (Rectangle.flatten p)
    | ATriangle p => Ok (Triangle.flatten p)
    | ALine p => Ok (Line.flatten p)
    | AnImage p => Image.flatten arrange p
    end.

Definition flatten (self : t) : result dict :=
  elements ← for_each flatten_element (elements self);
  Ok (mkdict [("type", Str "frame"); ("duration", Num (duration self));
              ("elements", List elements)]).
End flatten.
End Frame.

Module MatrixContent.
Record t := MatrixContent {
  frames : list (object Frame.t);
  current_index : Z }.

(** [__init__]: [self.frames = [Frame()]]; [current_index] is the
    class attribute, 0.  [next] is the allocator's next identity. *)
Definition init (next : nat) : t * nat :=
  let '(f, next) := alloc (Frame.init None None) next in
  ({| frames := [f]; current_index := 0 |}, next).

Definition frame (self : t) (index : option Z) : result (object Frame.t) :=
  match index with
  | None => getitem (frames self) (current_index self)
  | Some index => getitem (frames self) index
  end.

(** The content after the call, what the call returned or raised, and
    the allocator's next identity. *)
Definition new_frame (self : t) (next : nat)
    : t * result (object Frame.t) * nat :=
  let current_index := current_index self + 1 in
  let '(f, next) := alloc (Frame.init None None) next in
  let frames := frames self ++ [f] in
  ({| frames := frames; current_index := current_index |},
   getitem frames current_index, next).

Section flatten.
Variable arrange : list (Z * PILImage.pixel) → list (Z * PILImage.pixel).

Definition flatten (self : t) : result dict :=
  frames ← for_each (λ f, Dict <$> Frame.flatten arrange (state f))
                    (frames self);
  Ok (mkdict [("type", Str "matrix"); ("frames", List frames)]).
End flatten.
End MatrixContent.

(** [n] calls of [new_frame], one after the other. *)
Fixpoint new_frames (n : nat) (self : MatrixContent.t) (next : nat)
    : MatrixContent.t * nat :=
  match n with
  | O => (self, next)
  | S n' =>
      let '(self', _, next') := MatrixContent.new_frame self next in
      new_frames n' self' next'
  end.

(** The frame that [Frame()] builds. *)
Definition empty_frame : Frame.t := Frame.init None None.

(** [n] frames as [Frame()] builds them, allocated one after the other
    from the identity [next] on. *)
Definition fresh_frames (next n : nat) : list (object Frame.t) :=
  (λ i, Object i empty_frame) <$> seq next n.

(** The default color and the default location of a [ContentPiece]. *)
Definition white : Color.t := Color.init 255 255 255.
Definition origin : Location.t := Location.init 0 0.

(** ** The number of distinct colors, and concrete inputs *)

(** The number of distinct colors of a bitmap. *)
Definition distinct_colors (im : PILImage.t) : Z :=
  Z.of_nat (length (remove_dups (PILImage.getdata im))).

(** An element other than an image of more than 256 distinct colors. *)
Definition few_colors (element : object content_piece) : Prop :=
  match state element with
  | AnImage p => distinct_colors (Image.image p) ≤ 256
  | _ => True
  end.

(** The number of pixels of color [c] among [data]. *)
Definition occurrences (c : PILImage.pixel) (data : list PILImage.pixel) : Z :=
  Z.of_nat (length (filter (c =.) data)).

(** What [histogram] maintains: no color twice, the colors of the
    pixels seen, each with the number of its occurrences. *)
Definition tally (h : list (Z * PILImage.pixel)) (data : list PILImage.pixel)
    : Prop :=
  NoDup (h.*2) ∧
  (∀ c, c ∈ h.*2 ↔ c ∈ data) ∧
  (∀ n c, (n, c) ∈ h → n = occurrences c data).

(** The order of a list by descending count. *)
Definition by_count {A} (a b : Z * A) : Prop := b.1 ≤ a.1.

(** The palette of the branch "use colors as a list": the value of
    [colors] after the sort and the removal of the counts. *)
Definition palette (arrange : list (Z * PILImage.pixel) → list (Z * PILImage.pixel))
    (im : PILImage.t) : list PILImage.pixel :=
  (sort_by_count (arrange (PILImage.histogram (PILImage.getdata im)))).*2.

(** [n] pixels of [n] different colors, for [n] up to 65536. *)
Definition ramp (n : nat) : list PILImage.pixel :=
  (λ i : nat, (Z.of_nat i `mod` 256, Z.of_nat i `div` 256, 0)) <$> seq 0 n.

(** 2 columns by 2 rows, every pixel of the color (10,20,30). *)
Definition uniform_image : PILImage.t :=
  PILImage.PILImage (2, 2) [(10, 20, 30); (10, 20, 30); (10, 20, 30); (10, 20, 30)].

(** 300 columns by 3 rows, every row the same 300 colors. *)
Definition banded_image : PILImage.t :=
  PILImage.PILImage (300, 3) (ramp 300 ++ ramp 300 ++ ramp 300).

(** 300 columns by 1 row, every pixel a color of its own. *)
Definition strip_image : PILImage.t :=
  PILImage.PILImage (300, 1) (ramp 300).

(** 20 columns by 15 rows, every pixel a color of its own. *)
Definition tile_image : PILImage.t :=
  PILImage.PILImage (20, 15) (ramp 300).

(** A matrix content whose one frame shows [tile_image]. *)
Definition tile_content : MatrixContent.t :=
  {| MatrixContent.frames :=
       [Object 0%nat
          (Frame.add empty_frame
             (Object 1%nat (AnImage (Image.init tile_image None))))];
     MatrixContent.current_index := 0 |}.

(** Two pixels, distinct objects, and a frame that shows the first
    before the second. *)
Definition pixel_a : object content_piece :=
  Object 1%nat (APixel (Pixel.init (Some (Location.init 0 0)) None)).
Definition pixel_b : object content_piece :=
  Object 2%nat (APixel (Pixel.init (Some (Location.init 1 0)) None)).
Definition pixel_c : object content_piece :=
  Object 3%nat (APixel (Pixel.init (Some (Location.init 2 0)) None)).
Definition frame_ab : Frame.t := Frame.add (Frame.add empty_frame pixel_a) pixel_b.

(** A matrix content just constructed, the allocator at identity 0. *)
Definition fresh_content : MatrixContent.t := (MatrixContent.init 0).1.

(** ** Inputs and notions for the further properties *)

(** The character that starts a hex code. *)
Definition sharp : ascii := "#"%char.

(** A lowercase hexadecimal digit. *)
Definition lower_hex_digit (a : ascii) : Prop :=
  a ∈ String.list_ascii_of_string "0123456789abcdef".

(** A string of exactly two lowercase hexadecimal digits. *)
Definition two_hex_digits (s : string) : bool :=
  match s with
  | String a (String b EmptyString) =>
      bool_decide (lower_hex_digit a) && bool_decide (lower_hex_digit b)
  | _ => false
  end.

(** 4 columns by 3 rows, every pixel a color of its own. *)
Definition patch_image : PILImage.t := PILImage.PILImage (4, 3) (ramp 12).

(** 3 columns by 2 rows: (10,20,30) three times, (1,2,3) twice and
    (0,0,0) once. *)
Definition mixed_image : PILImage.t :=
  PILImage.PILImage (3, 2)
    [(1, 2, 3); (10, 20, 30); (1, 2, 3); (10, 20, 30); (0, 0, 0); (10, 20, 30)].

(** A bitmap without pixels. *)
Definition empty_image : PILImage.t := PILImage.PILImage (0, 0) [].

(** A matrix content whose one frame is [frame_ab]. *)
Definition pixel_content : MatrixContent.t :=
  {| MatrixContent.frames := [Object 0%nat frame_ab];
     MatrixContent.current_index := 0 |}.

(** An image of more than 256 distinct colors. *)
Definition many_colors (element : object content_piece) : Prop :=
  match state element with
  | AnImage p => 256 < distinct_colors (Image.image p)
  | _ => False
  end.

(** What [Frame()] flattens to. *)
Definition empty_frame_dict : value :=
  Dict [("type", Str "frame"); ("duration", Int 0); ("elements", List [])].

(** * Properties *)

(** ** Dicts *)

Lemma dict_get_set k k' v d :
  dict_get k (dict_set k' v d) = if String.eqb k k' then Some v else dict_get k d.
Proof.
  induction d as [|[k0 v0] d IH]; simpl; [done|].
  destruct (String.eqb_spec k' k0) as [->|Hne]; simpl.
  - by destruct (String.eqb k k0).
  - rewrite IH. destruct (String.eqb_spec k k0) as [->|]; [|done].
    by destruct (String.eqb_spec k0 k').
Qed.

Lemma dict_keys_set k v d :
  dict_keys (dict_set k v d) =
  if bool_decide (k ∈ dict_keys d) then dict_keys d else dict_keys d ++ [k].
Proof.
  unfold dict_keys. induction d as [|[k0 v0] d IH]; csimpl.
  - done.
  - destruct (String.eqb_spec k k0) as [->|Hne]; csimpl.
    + rewrite bool_decide_eq_true_2; [done|]. apply elem_of_cons; by left.
    + rewrite IH. case_bool_decide as Hin.
      * rewrite bool_decide_eq_true_2; [done|]. apply elem_of_cons; by right.
      * rewrite bool_decide_eq_false_2; [done|].
        intros [?|?]%elem_of_cons; congruence.
Qed.

(** Setting a key keeps the keys of a dict distinct. *)
Lemma dict_set_NoDup k v d : NoDup (dict_keys d) → NoDup (dict_keys (dict_set k v d)).
Proof.
  intros Hd. rewrite dict_keys_set. case_bool_decide as Hin; [done|].
  apply NoDup_app. split; [done|]. split.
  - intros x Hx ->%list_elem_of_singleton. done.
  - apply NoDup_singleton.
Qed.

Lemma dict_update_NoDup d d2 :
  NoDup (dict_keys d) → NoDup (dict_keys (dict_update d d2)).
Proof.
  unfold dict_update. revert d.
  induction d2 as [|[k v] d2 IH]; intros d Hd; simpl; [done|].
  apply IH. by apply dict_set_NoDup.
Qed.

(** For a dict, looking a key up in the mapping is [dict_get]. *)
Lemma as_map_lookup d k : as_map d !! k = dict_get k d.
Proof.
  unfold as_map. induction d as [|[k0 v0] d IH]; simpl.
  - apply lookup_empty.
  - destruct (String.eqb k k0) eqn:E.
    + apply String.eqb_eq in E as ->. apply lookup_insert_eq.
    + apply String.eqb_neq in E. rewrite lookup_insert_ne; [done|congruence].
Qed.

(** ** Colors *)

Lemma string_length_app s1 s2 :
  String.length (s1 +:+ s2) = (String.length s1 + String.length s2)%nat.
Proof. induction s1 as [|a s1 IH]; simpl; [done|]. by rewrite IH. Qed.

Lemma format_02x_length n : 0 ≤ n ≤ 255 → String.length (format_02x n) = 2%nat.
Proof.
  intros Hn.
  assert (Forall (λ n, String.length (format_02x n) = 2%nat) (seqZ 0 256))
    as Hall by (apply (bool_decide_unpack _); by vm_compute).
  eapply Forall_forall in Hall; [done|]. apply elem_of_seqZ. lia.
Qed.

(** The hex code of a color in range is "#" and six more characters. *)
Lemma Color_hex_length c :
  Color.valid c →
  String.length (Color.hex c) = 7%nat ∧ String.get 0 (Color.hex c) = Some (Ascii.ascii_of_nat 35).
Proof.
  intros (Hr & Hg & Hb). unfold Color.hex. split; [|done].
  cbn [String.append String.length].
  by rewrite !string_length_app, !format_02x_length.
Qed.

(** ** The content pieces *)

Lemma Pixel_flatten_init location color :
  Pixel.flatten (Pixel.init location color) =
  [("type", Str "pixel");
   ("color", Str (Color.hex (default white color)));
   ("x", Int (Location.x (default origin location)));
   ("y", Int (Location.y (default origin location)))].
Proof. by destruct location, color. Qed.

Lemma Text_flatten_init text location color :
  Text.flatten (Text.init text location color) =
  [("type", Str "text"); ("text", Str text);
   ("color", Str (Color.hex (default white color)));
   ("x", Int (Location.x (default origin location)));
   ("y", Int (Location.y (default origin location)))].
Proof. by destruct location, color. Qed.

Lemma Circle_flatten_init radius fill location color :
  Circle.flatten (Circle.init radius fill location color) =
  [("type", Str "circle"); ("radius", Int radius);
   ("fill", Bool (default true fill));
   ("color", Str (Color.hex (default white color)));
   ("x", Int (Location.x (default origin location)));
   ("y", Int (Location.y (default origin location)))].
Proof. by destruct location, color. Qed.

Lemma Line_flatten_init start_location end_location color :
  Line.flatten (Line.init start_location end_location color) =
  [("type", Str "line");
   ("end_location", Dict (Location.flatten (default origin end_location)));
   ("color", Str (Color.hex (default white color)));
   ("x", Int (Location.x (default origin start_location)));
   ("y", Int (Location.y (default origin start_location)))].
Proof. by destruct start_location, color. Qed.

(** A rectangle given both a location and a color: the two swapped
    arguments flatten to the same entries, location first. *)
Lemma Rectangle_flatten_both width height fill location color :
  Rectangle.flatten
    (Rectangle.init width height fill (Some location) (Some color)) =
  [("type", Str "rect"); ("width", Int width); ("height", Int height);
   ("fill", Bool (default true fill));
   ("x", Int (Location.x location)); ("y", Int (Location.y location));
   ("color", Str (Color.hex color))].
Proof. done. Qed.

(** A rectangle given neither. *)
Lemma Rectangle_flatten_neither width height fill :
  Rectangle.flatten (Rectangle.init width height fill None None) =
  [("type", Str "rect"); ("width", Int width); ("height", Int height);
   ("fill", Bool (default true fill));
   ("color", Str "#ffffff"); ("x", Int 0); ("y", Int 0)].
Proof. done. Qed.

(** C3, at the inputs where the code departs from it: a [Rectangle]
    built with a location and the default color flattens to a dict
    with no "color" key, whose "x" and "y" are 0 and not the
    location's; built with a color and the default location, it
    flattens to a dict with no "x" and no "y" key. *)
Theorem Rectangle_flatten_one_default :
  let with_location :=
    Rectangle.flatten
      (Rectangle.init 5 3 (Some true) (Some (Location.init 2 2)) None) in
  let with_color :=
    Rectangle.flatten
      (Rectangle.init 5 3 (Some true) None (Some (Color.init 0 255 0))) in
  with_location =
    [("type", Str "rect"); ("width", Int 5); ("height", Int 3);
     ("fill", Bool true); ("x", Int 0); ("y", Int 0)] ∧
  dict_get "color" with_location = None ∧
  with_color =
    [("type", Str "rect"); ("width", Int 5); ("height", Int 3);
     ("fill", Bool true); ("color", Str "#00ff00")] ∧
  dict_get "x" with_color = None ∧
  dict_get "y" with_color = None.
Proof. repeat split. Qed.

(** C4: the rectangle of width 5 and height 3, filled, at (2,2), of
    color (0,255,0), flattens to a dict that is, as a mapping, the one
    with type "rect", width 5, height 3, fill true, color "#00ff00",
    x 2 and y 2; no key occurs twice in it. *)
Theorem Rectangle_flatten_example :
  let d :=
    Rectangle.flatten
      (Rectangle.init 5 3 (Some true) (Some (Location.init 2 2))
                      (Some (Color.init 0 255 0))) in
  as_map d =
    as_map [("type", Str "rect"); ("width", Int 5); ("height", Int 3);
            ("fill", Bool true); ("color", Str "#00ff00");
            ("x", Int 2); ("y", Int 2)] ∧
  NoDup (dict_keys d).
Proof.
  intros d. subst d. split.
  - apply map_eq. intros k. rewrite !as_map_lookup. simpl.
    repeat match goal with
           | |- context [String.eqb k ?s] =>
               destruct (String.eqb_spec k s) as [->|?]; [reflexivity|]
           end.
    reflexivity.
  - unfold Rectangle.flatten, mkdict.
    apply dict_update_NoDup, dict_update_NoDup. constructor.
Qed.

(** C5: a triangle flattens to the dict with the keys "type", "p1",
    "p2", "p3" and "color", in which each vertex is a flattened
    location and the color is a flattened color under "color"; it has
    no "x" and no "y" key.  The triangle (0,0), (1,0), (0,1) of color
    (255,0,0) flattens to the dict of the specification. *)
Theorem Triangle_flatten_nested :
  (∀ p1 p2 p3 fill color,
     let d := Triangle.flatten (Triangle.init p1 p2 p3 fill color) in
     d = [("type", Str "triangle");
          ("p1", Dict [("x", Int (Location.x p1)); ("y", Int (Location.y p1))]);
          ("p2", Dict [("x", Int (Location.x p2)); ("y", Int (Location.y p2))]);
          ("p3", Dict [("x", Int (Location.x p3)); ("y", Int (Location.y p3))]);
          ("color", Dict [("color", Str (Color.hex (default white color)))])] ∧
     dict_get "p1" d = Some (Dict (Location.flatten p1)) ∧
     dict_get "p2" d = Some (Dict (Location.flatten p2)) ∧
     dict_get "p3" d = Some (Dict (Location.flatten p3)) ∧
     dict_get "color" d = Some (Dict (Color.flatten (default white color))) ∧
     dict_get "x" d = None ∧ dict_get "y" d = None) ∧
  Triangle.flatten
    (Triangle.init (Location.init 0 0) (Location.init 1 0) (Location.init 0 1)
                   None (Some (Color.init 255 0 0))) =
  [("type", Str "triangle");
   ("p1", Dict [("x", Int 0); ("y", Int 0)]);
   ("p2", Dict [("x", Int 1); ("y", Int 0)]);
   ("p3", Dict [("x", Int 0); ("y", Int 1)]);
   ("color", Dict [("color", Str "#ff0000")])].
Proof.
  split; [|done]. intros p1 p2 p3 fill color. by destruct color.
Qed.

(** ** Frames *)

Lemma list_remove_absent {A} (eqb : A → A → bool) x l :
  (∀ y, y ∈ l → eqb y x = false) → list_remove eqb x l = None.
Proof.
  induction l as [|y l IH]; intros Hl; simpl; [done|].
  rewrite (Hl y) by (apply elem_of_cons; by left).
  rewrite IH; [done|]. intros z Hz. apply Hl, elem_of_cons. by right.
Qed.

Lemma list_remove_last {A} (eqb : A → A → bool) x l :
  eqb x x = true →
  (∀ y, y ∈ l → eqb y x = false) → list_remove eqb x (l ++ [x]) = Some l.
Proof.
  intros Hx. induction l as [|y l IH]; intros Hl; simpl.
  - by rewrite Hx.
  - rewrite (Hl y) by (apply elem_of_cons; by left).
    rewrite IH; [done|]. intros z Hz. apply Hl, elem_of_cons. by right.
Qed.

Lemma same_object_false {A} (a b : object A) : oid a ≠ oid b → same_object a b = false.
Proof. intros. by apply Nat.eqb_neq. Qed.

(** C7 fails as stated: [pixel_a] is the first element of [frame_ab];
    adding it again and removing it deletes that first occurrence, and
    the frame then shows [pixel_b] before [pixel_a]. *)
Lemma Frame_add_remove_present :
  Frame.elements frame_ab = [pixel_a; pixel_b] ∧
  Frame.elements (Frame.remove (Frame.add frame_ab pixel_a) pixel_a).1 =
    [pixel_b; pixel_a] ∧
  Frame.elements (Frame.remove (Frame.add frame_ab pixel_a) pixel_a).1 ≠
    Frame.elements frame_ab.
Proof. repeat split. discriminate. Qed.

(** C7, amended: for every frame and every element that is not yet
    among the frame's elements, [add] followed by [remove] of that
    element succeeds and gives back the frame as it was. *)
Theorem Frame_add_remove (f : Frame.t) (e : object content_piece) :
  (∀ x, x ∈ Frame.elements f → oid x ≠ oid e) →
  Frame.remove (Frame.add f e) e = (f, Ok ()).
Proof.
  intros Hnew. destruct f as [l d]. unfold Frame.remove, Frame.add. simpl in *.
  rewrite list_remove_last; [done| |].
  - apply Nat.eqb_refl.
  - intros y Hy. by apply same_object_false, Hnew.
Qed.

(** An instance: [pixel_c] is not shown by [frame_ab]. *)
Lemma Frame_add_remove_witness :
  Frame.remove (Frame.add frame_ab pixel_c) pixel_c = (frame_ab, Ok ()).
Proof.
  apply Frame_add_remove. intros x Hx.
  apply elem_of_cons in Hx as [->|Hx]; [simpl; lia|].
  apply list_elem_of_singleton in Hx as ->. simpl; lia.
Defined.

(** C10: removing an element that is not among the frame's elements
    raises ValueError and leaves the frame as it was. *)
Theorem Frame_remove_absent (f : Frame.t) (e : object content_piece) :
  (∀ x, x ∈ Frame.elements f → oid x ≠ oid e) →
  Frame.remove f e = (f, Raise ValueError).
Proof.
  intros Habsent. unfold Frame.remove.
  rewrite list_remove_absent; [done|].
  intros y Hy. by apply same_object_false, Habsent.
Qed.

(** An instance: [pixel_c] is not shown by [frame_ab]. *)
Lemma Frame_remove_absent_witness :
  Frame.remove frame_ab pixel_c = (frame_ab, Raise ValueError).
Proof.
  apply Frame_remove_absent. intros x Hx.
  apply elem_of_cons in Hx as [->|Hx]; [simpl; lia|].
  apply list_elem_of_singleton in Hx as ->. simpl; lia.
Defined.

(** ** Matrix contents *)

Lemma getitem_inside {A} (l : list A) (i : Z) :
  0 ≤ i < Z.of_nat (length l) →
  ∃ a, l !! Z.to_nat i = Some a ∧ getitem l i = Ok a.
Proof.
  intros Hi. destruct (lookup_lt_is_Some_2 l (Z.to_nat i)) as [a Ha]; [lia|].
  exists a. split; [done|]. unfold getitem.
  rewrite (bool_decide_eq_false_2 (i < 0)) by lia. cbv zeta iota.
  rewrite bool_decide_eq_true_2 by lia. by rewrite Ha.
Qed.

Lemma getitem_from_end {A} (l : list A) (i : Z) :
  - Z.of_nat (length l) ≤ i < 0 →
  ∃ a, l !! Z.to_nat (Z.of_nat (length l) + i) = Some a ∧ getitem l i = Ok a.
Proof.
  intros Hi.
  destruct (lookup_lt_is_Some_2 l (Z.to_nat (Z.of_nat (length l) + i)))
    as [a Ha]; [lia|].
  exists a. split; [done|]. unfold getitem.
  rewrite (bool_decide_eq_true_2 (i < 0)) by lia. cbv zeta iota.
  rewrite bool_decide_eq_true_2 by lia.
  by rewrite (Z.add_comm i), Ha.
Qed.

Lemma getitem_outside {A} (l : list A) (i : Z) :
  i < - Z.of_nat (length l) ∨ Z.of_nat (length l) ≤ i →
  getitem l i = Raise IndexError.
Proof.
  intros Hi. unfold getitem. destruct (decide (i < 0)) as [Hneg|Hpos].
  - rewrite (bool_decide_eq_true_2 (i < 0)) by done. cbv zeta iota.
    by rewrite bool_decide_eq_false_2 by lia.
  - rewrite (bool_decide_eq_false_2 (i < 0)) by done. cbv zeta iota.
    by rewrite bool_decide_eq_false_2 by lia.
Qed.

Lemma fresh_frames_snoc next n :
  fresh_frames next n ++ [Object (next + n)%nat empty_frame] =
  fresh_frames next (S n).
Proof. unfold fresh_frames. by rewrite seq_S, fmap_app. Qed.

Lemma fresh_frames_length next n : length (fresh_frames next n) = n.
Proof. unfold fresh_frames. by rewrite length_fmap, length_seq. Qed.

Lemma fresh_frames_lookup next n i :
  (i < n)%nat → fresh_frames next n !! i = Some (Object (next + i)%nat empty_frame).
Proof.
  intros Hi. unfold fresh_frames. rewrite list_lookup_fmap.
  by rewrite lookup_seq_lt.
Qed.

(** With [k + 1] frames and the cursor on the last, [new_frame]
    allocates one more frame, moves the cursor to it and returns it. *)
Lemma new_frame_fresh next k :
  MatrixContent.new_frame
    (MatrixContent.MatrixContent (fresh_frames next (S k)) (Z.of_nat k))
    (next + S k) =
  (MatrixContent.MatrixContent (fresh_frames next (S (S k))) (Z.of_nat (S k)),
   Ok (Object (next + S k)%nat empty_frame),
   (next + S (S k))%nat).
Proof.
  unfold MatrixContent.new_frame, alloc. simpl MatrixContent.frames.
  simpl MatrixContent.current_index.
  change (Frame.init None None) with empty_frame.
  rewrite fresh_frames_snoc.
  replace (Z.of_nat k + 1) with (Z.of_nat (S k)) by lia.
  destruct (getitem_inside (fresh_frames next (S (S k))) (Z.of_nat (S k)))
    as (f & Hf & ->); [rewrite fresh_frames_length; lia|].
  rewrite Nat2Z.id, fresh_frames_lookup in Hf by lia.
  injection Hf as <-. do 2 f_equal. lia.
Qed.

Lemma new_frames_fresh n next k :
  new_frames n
    (MatrixContent.MatrixContent (fresh_frames next (S k)) (Z.of_nat k))
    (next + S k) =
  (MatrixContent.MatrixContent (fresh_frames next (S (k + n)))
                               (Z.of_nat (k + n)),
   (next + S (k + n))%nat).
Proof.
  revert k. induction n as [|n IH]; intros k; cbn [new_frames].
  - by rewrite Nat.add_0_r.
  - rewrite new_frame_fresh, IH. by replace (k + S n)%nat with (S k + n)%nat by lia.
Qed.

(** C6: a matrix content just constructed has exactly one frame, an
    empty one; after [N] calls of [new_frame] it has [N + 1] frames,
    allocated one after the other, and [frame()] returns the last of
    them, the one allocated most recently; one more call of
    [new_frame] returns the frame it creates, which [frame()] then
    returns. *)
Theorem MatrixContent_new_frame_count (next N : nat) :
  let mc0 := (MatrixContent.init next).1 in
  let next0 := (MatrixContent.init next).2 in
  let mc := (new_frames N mc0 next0).1 in
  let nextN := (new_frames N mc0 next0).2 in
  MatrixContent.frames mc0 = [Object next empty_frame] ∧
  Frame.elements empty_frame = [] ∧
  length (MatrixContent.frames mc) = S N ∧
  MatrixContent.frames mc = fresh_frames next (S N) ∧
  MatrixContent.frame mc None = Ok (Object (next + N)%nat empty_frame) ∧
  last (MatrixContent.frames mc) = Some (Object (next + N)%nat empty_frame) ∧
  (MatrixContent.new_frame mc nextN).1.2 =
    Ok (Object (next + S N)%nat empty_frame) ∧
  MatrixContent.frame (MatrixContent.new_frame mc nextN).1.1 None =
    (MatrixContent.new_frame mc nextN).1.2.
Proof.
  intros mc0 next0 mc nextN.
  assert (Hrun : new_frames N mc0 next0 =
            (MatrixContent.MatrixContent (fresh_frames next (S N)) (Z.of_nat N),
             (next + S N)%nat)).
  { subst mc0 next0. pose proof (new_frames_fresh N next 0) as H.
    replace (next + 1)%nat with (S next) in H by lia. exact H. }
  subst mc nextN. rewrite Hrun. cbn [fst snd].
  rewrite new_frame_fresh. cbn [fst snd].
  assert (Hlast : ∀ n, MatrixContent.frame
            (MatrixContent.MatrixContent (fresh_frames next (S n)) (Z.of_nat n))
            None = Ok (Object (next + n)%nat empty_frame)).
  { intros n. unfold MatrixContent.frame. simpl.
    destruct (getitem_inside (fresh_frames next (S n)) (Z.of_nat n))
      as (f & Hf & ->); [rewrite fresh_frames_length; lia|].
    rewrite Nat2Z.id, fresh_frames_lookup in Hf by lia. by injection Hf as <-. }
  repeat split.
  - apply fresh_frames_length.
  - apply Hlast.
  - simpl MatrixContent.frames. rewrite <- fresh_frames_snoc. apply last_snoc.
  - apply (Hlast (S N)).
Qed.

(** C8 fails as stated: -1 is a negative index, and on a matrix
    content just constructed [frame(-1)] returns the one frame there
    is instead of raising IndexError. *)
Lemma MatrixContent_frame_negative :
  MatrixContent.frame fresh_content (Some (-1)) = Ok (Object 0%nat empty_frame) ∧
  MatrixContent.frame fresh_content (Some (-1)) ≠ Raise IndexError.
Proof. split; [reflexivity|discriminate]. Qed.

(** C8, amended: with [n] frames, [frame(i)] returns the frame stored
    at position [i] when [0 <= i < n], the frame stored at position
    [n + i] when [-n <= i < 0], and raises IndexError when [i < -n] or
    [n <= i]; [frame()] is [frame(current_index)]. *)
Theorem MatrixContent_frame_index (self : MatrixContent.t) (i : Z) :
  let n := Z.of_nat (length (MatrixContent.frames self)) in
  (0 ≤ i < n →
   ∃ f, MatrixContent.frames self !! Z.to_nat i = Some f ∧
        MatrixContent.frame self (Some i) = Ok f) ∧
  (- n ≤ i < 0 →
   ∃ f, MatrixContent.frames self !! Z.to_nat (n + i) = Some f ∧
        MatrixContent.frame self (Some i) = Ok f) ∧
  (i < - n ∨ n ≤ i → MatrixContent.frame self (Some i) = Raise IndexError) ∧
  MatrixContent.frame self None =
    MatrixContent.frame self (Some (MatrixContent.current_index self)).
Proof.
  intros n. repeat split.
  - apply getitem_inside.
  - apply getitem_from_end.
  - apply getitem_outside.
Qed.

(** An instance: the indices 0, -1 and 1 on a matrix content of one frame. *)
Lemma MatrixContent_frame_index_witness :
  (∃ f, MatrixContent.frames fresh_content !! Z.to_nat 0 = Some f ∧
        MatrixContent.frame fresh_content (Some 0) = Ok f) ∧
  (∃ f, MatrixContent.frames fresh_content !! Z.to_nat (1 + -1) = Some f ∧
        MatrixContent.frame fresh_content (Some (-1)) = Ok f) ∧
  MatrixContent.frame fresh_content (Some 1) = Raise IndexError.
Proof.
  split; [|split].
  - apply (MatrixContent_frame_index fresh_content 0). simpl. lia.
  - apply (MatrixContent_frame_index fresh_content (-1)). simpl. lia.
  - apply (MatrixContent_frame_index fresh_content 1). simpl. lia.
Defined.

(** ** Images *)

(** *** The table of colors *)

Lemma occurrences_snoc c c' data :
  occurrences c' (data ++ [c]) =
  occurrences c' data + (if decide (c' = c) then 1 else 0).
Proof.
  unfold occurrences. rewrite filter_app, length_app, filter_cons.
  destruct (decide (c' = c)); simpl; rewrite ?filter_nil; simpl; lia.
Qed.

Lemma occurrences_absent c data : c ∉ data → occurrences c data = 0.
Proof.
  intros Hc. unfold occurrences.
  destruct (filter (c =.) data) as [|x l] eqn:E; [done|].
  assert (x ∈ filter (c =.) data) as [<- ?]%list_elem_of_filter; [|done].
  rewrite E. apply elem_of_cons; by left.
Qed.

(** The colors of the table after one more occurrence of [c]. *)
Lemma count_color_colors c h :
  (PILImage.count_color c h).*2 = if decide (c ∈ h.*2) then h.*2 else h.*2 ++ [c].
Proof.
  induction h as [|[n c0] h IH]; csimpl.
  - done.
  - destruct (decide (c = c0)) as [->|Hne]; csimpl.
    + rewrite decide_True; [done|]. apply elem_of_cons; by left.
    + rewrite IH. destruct (decide (c ∈ h.*2)) as [Hin|Hin].
      * rewrite decide_True; [done|]. apply elem_of_cons; by right.
      * rewrite decide_False; [done|]. intros [?|?]%elem_of_cons; done.
Qed.

(** Where an entry of the table comes from, after one more occurrence
    of [c]. *)
Lemma count_color_elem_of c h n c' :
  NoDup (h.*2) →
  (n, c') ∈ PILImage.count_color c h →
  (c' ≠ c ∧ (n, c') ∈ h) ∨
  (c' = c ∧ ((n - 1, c) ∈ h ∨ ((c ∉ h.*2) ∧ n = 1))).
Proof.
  induction h as [|[m c0] h IH]; csimpl; intros Hnd Hin.
  - apply list_elem_of_singleton in Hin. injection Hin as -> ->.
    right. split; [done|]. right. split; [apply not_elem_of_nil|done].
  - apply NoDup_cons in Hnd as [Hc0 Hnd].
    destruct (decide (c = c0)) as [->|Hne].
    + apply elem_of_cons in Hin as [Hin|Hin].
      * injection Hin as -> ->. right. split; [done|]. left.
        replace (m + 1 - 1) with m by lia. apply elem_of_cons; by left.
      * left. split.
        -- intros ->. apply Hc0. apply list_elem_of_fmap. by exists (n, c0).
        -- apply elem_of_cons; by right.
    + apply elem_of_cons in Hin as [Hin|Hin].
      * injection Hin as -> ->. left. split; [done|]. apply elem_of_cons; by left.
      * destruct (IH Hnd Hin) as [[? ?]|[-> [?|[? ->]]]].
        -- left. split; [done|]. apply elem_of_cons; by right.
        -- right. split; [done|]. left. apply elem_of_cons; by right.
        -- right. split; [done|]. right. split; [|done].
           intros [?|?]%elem_of_cons; done.
Qed.

Lemma tally_count_color h data c :
  tally h data → tally (PILImage.count_color c h) (data ++ [c]).
Proof.
  intros (Hnd & Hcol & Hcnt). split; [|split].
  - rewrite count_color_colors. destruct (decide (c ∈ h.*2)); [done|].
    apply NoDup_app. split; [done|]. split; [|apply NoDup_singleton].
    intros x Hx ->%list_elem_of_singleton. done.
  - intros c'. rewrite count_color_colors, elem_of_app, list_elem_of_singleton.
    destruct (decide (c ∈ h.*2)) as [Hin|Hin].
    + rewrite Hcol. split; [by left|]. intros [?| ->]; [done|]. by apply Hcol.
    + by rewrite elem_of_app, list_elem_of_singleton, Hcol.
  - intros n c' Hin. rewrite occurrences_snoc.
    destruct (count_color_elem_of _ _ _ _ Hnd Hin) as [[Hne Hh]|[-> [Hh|[Hh ->]]]].
    + rewrite decide_False by done. rewrite (Hcnt _ _ Hh). lia.
    + rewrite decide_True by done. rewrite <- (Hcnt _ _ Hh). lia.
    + rewrite decide_True by done. rewrite occurrences_absent; [done|].
      by rewrite <- Hcol.
Qed.

Lemma tally_fold h seen data :
  tally h seen →
  tally (fold_left (λ h c, PILImage.count_color c h) data h) (seen ++ data).
Proof.
  revert h seen. induction data as [|c data IH]; intros h seen Hh; simpl.
  - by rewrite app_nil_r.
  - replace (seen ++ c :: data) with ((seen ++ [c]) ++ data)
      by (by rewrite <- (assoc_L (++))).
    by apply IH, tally_count_color.
Qed.

Lemma tally_histogram data : tally (PILImage.histogram data) data.
Proof.
  apply (tally_fold [] [] data). split; [constructor|]. split.
  - done.
  - intros n c Hin. by apply elem_of_nil in Hin.
Qed.

(** [histogram] has one entry for each distinct color. *)
Lemma histogram_length im :
  Z.of_nat (length (PILImage.histogram (PILImage.getdata im))) = distinct_colors im.
Proof.
  unfold distinct_colors. destruct (tally_histogram (PILImage.getdata im)) as (Hnd & Hcol & _).
  rewrite <- (length_fmap snd). f_equal. apply Permutation_length.
  apply NoDup_Permutation; [done|apply NoDup_remove_dups|].
  intros c. by rewrite Hcol, elem_of_remove_dups.
Qed.

(** *** The sort by count *)

Lemma insert_by_count_Permutation {A} (x : Z * A) l :
  insert_by_count x l ≡ₚ x :: l.
Proof.
  induction l as [|y l IH]; simpl; [done|].
  case_bool_decide; [|done]. by rewrite IH, Permutation_swap.
Qed.

Lemma sort_by_count_Permutation {A} (l : list (Z * A)) : sort_by_count l ≡ₚ l.
Proof.
  induction l as [|x l IH]; simpl; [done|].
  by rewrite insert_by_count_Permutation, IH.
Qed.

Lemma insert_by_count_sorted {A} (x : Z * A) l :
  StronglySorted by_count l → StronglySorted by_count (insert_by_count x l).
Proof.
  induction l as [|y l IH]; simpl; intros Hl.
  - by repeat constructor.
  - apply StronglySorted_cons in Hl as [Hy Hl]. case_bool_decide as Hxy.
    + apply StronglySorted_cons. split; [|by apply IH].
      rewrite insert_by_count_Permutation. constructor; [|done].
      unfold by_count. lia.
    + apply StronglySorted_cons. split; [|by apply StronglySorted_cons].
      constructor; [unfold by_count; lia|].
      eapply Forall_impl; [exact Hy|]. unfold by_count. intros z Hz. lia.
Qed.

(** The sort puts the counts in descending order. *)
Lemma sort_by_count_sorted {A} (l : list (Z * A)) :
  StronglySorted by_count (sort_by_count l).
Proof.
  induction l as [|x l IH]; simpl; [constructor|].
  by apply insert_by_count_sorted.
Qed.

Lemma insert_by_count_stable {A} (x : Z * A) l n :
  filter (λ a, a.1 = n) (insert_by_count x l) = filter (λ a, a.1 = n) (x :: l).
Proof.
  induction l as [|y l IH]; simpl; [done|].
  case_bool_decide as Hxy; [|done].
  rewrite (filter_cons _ y), IH, !(filter_cons _ x), !(filter_cons _ y).
  destruct (decide (x.1 = n)), (decide (y.1 = n)); try done. lia.
Qed.

(** The sort is stable: the entries of one count keep their order. *)
Lemma sort_by_count_stable {A} (l : list (Z * A)) n :
  filter (λ a, a.1 = n) (sort_by_count l) = filter (λ a, a.1 = n) l.
Proof.
  induction l as [|x l IH]; simpl; [done|].
  by rewrite insert_by_count_stable, !filter_cons, IH.
Qed.

(** *** Indexing and comprehension *)

Lemma index_elem_of `{EqDecision A} (x : A) l :
  x ∈ l → ∃ i : nat, index x l = Ok (Z.of_nat i) ∧ l !! i = Some x.
Proof.
  induction l as [|y l IH]; intros Hx; [by apply elem_of_nil in Hx|].
  simpl. destruct (decide (y = x)) as [->|Hne].
  - by exists 0%nat.
  - apply elem_of_cons in Hx as [?|Hx]; [done|].
    destruct (IH Hx) as (i & -> & Hi). exists (S i). split; [|done].
    simpl. f_equal. lia.
Qed.

Lemma for_each_Forall2 {A B} (f : A → result B) (P : A → B → Prop) l :
  (∀ a, a ∈ l → ∃ b, f a = Ok b ∧ P a b) →
  ∃ bs, for_each f l = Ok bs ∧ Forall2 P l bs.
Proof.
  induction l as [|a l IH]; intros Hl; simpl.
  - exists []. by split.
  - destruct (Hl a) as (b & -> & Hb); [apply elem_of_cons; by left|].
    destruct IH as (bs & -> & Hbs).
    { intros a' Ha'. apply Hl, elem_of_cons. by right. }
    exists (b :: bs). split; [done|]. by constructor.
Qed.

Lemma StronglySorted_fmap_impl {A B} (R : relation A) (R' : relation B)
    (f : A → B) (l : list A) :
  (∀ a b, a ∈ l → b ∈ l → R a b → R' (f a) (f b)) →
  StronglySorted R l → StronglySorted R' (f <$> l).
Proof.
  induction l as [|a l IH]; intros HR Hl; csimpl; [constructor|].
  apply StronglySorted_cons in Hl as [Ha Hl]. apply StronglySorted_cons. split.
  - apply Forall_fmap, Forall_forall. intros b Hb. simpl. apply HR.
    + apply elem_of_cons; by left.
    + apply elem_of_cons; by right.
    + by eapply Forall_forall in Ha.
  - apply IH; [|done]. intros a' b' Ha' Hb'. apply HR; apply elem_of_cons; by right.
Qed.

Lemma filter_fmap_ext {A B} (f : A → B) (P : A → Prop) (Q : B → Prop)
    `{!∀ a, Decision (P a)} `{!∀ b, Decision (Q b)} (l : list A) :
  (∀ a, a ∈ l → P a ↔ Q (f a)) →
  filter Q (f <$> l) = f <$> filter P l.
Proof.
  induction l as [|a l IH]; intros HPQ; csimpl; [done|].
  rewrite !filter_cons, IH.
  - destruct (decide (P a)) as [HP|HP], (decide (Q (f a))) as [HQ|HQ]; try done.
    + destruct HQ. apply HPQ; [apply elem_of_cons; by left|done].
    + destruct HP. apply HPQ; [apply elem_of_cons; by left|done].
  - intros a' Ha'. apply HPQ, elem_of_cons. by right.
Qed.

(** *** What [Image.flatten] returns *)

Section image_flatten.
Variable arrange : list (Z * PILImage.pixel) → list (Z * PILImage.pixel).

Lemma getcolors_many im :
  256 < distinct_colors im → PILImage.getcolors arrange im = None.
Proof.
  intros Hn. unfold PILImage.getcolors. rewrite <- histogram_length in Hn.
  rewrite bool_decide_eq_true_2; [done|lia].
Qed.

Lemma getcolors_few im :
  distinct_colors im ≤ 256 →
  PILImage.getcolors arrange im =
  Some (arrange (PILImage.histogram (PILImage.getdata im))).
Proof.
  intros Hn. unfold PILImage.getcolors. rewrite <- histogram_length in Hn.
  rewrite bool_decide_eq_false_2; [done|lia].
Qed.

(** For every bitmap with more than 256 distinct colors [flatten]
    raises TypeError. *)
Lemma Image_flatten_many_colors self :
  256 < distinct_colors (Image.image self) →
  Image.flatten arrange self = Raise TypeError.
Proof. intros Hn. unfold Image.flatten. by rewrite getcolors_many. Qed.

(** From here on, Pillow's list of colors is some arrangement of the
    table of colors. *)
Hypothesis arrange_perm : ∀ h, arrange h ≡ₚ h.

Lemma arrange_histogram_length im :
  Z.of_nat (length (arrange (PILImage.histogram (PILImage.getdata im)))) =
  distinct_colors im.
Proof. by rewrite arrange_perm, histogram_length. Qed.

(** With at most 256 distinct colors, [flatten] takes the palette
    branch exactly when there are fewer than 10 distinct colors or
    fewer than half as many as pixels in [width * height]. *)
Lemma Image_flatten_few_colors self :
  let im := Image.image self in
  distinct_colors im ≤ 256 →
  Image.flatten arrange self =
  if bool_decide (distinct_colors im < 10 ∨
                  2 * distinct_colors im <
                    (PILImage.size im).1 * (PILImage.size im).2)
  then Image.flatten_palette arrange self
  else Image.flatten_raw self.
Proof.
  intros im Hn. unfold Image.flatten. fold im. rewrite getcolors_few by done.
  cbn [len mbind result_bind]. rewrite arrange_histogram_length. fold im.
  destruct (decide (distinct_colors im < 10)) as [Hlt|Hge].
  - rewrite (bool_decide_eq_true_2 (distinct_colors im < 10)) by done.
    rewrite bool_decide_eq_true_2; [done|by left].
  - rewrite (bool_decide_eq_false_2 (distinct_colors im < 10)) by done.
    rewrite (bool_decide_ext (_ ∨ _) (2 * distinct_colors im <
      (PILImage.size im).1 * (PILImage.size im).2)); [done|].
    split; [by intros [?|?]|by right].
Qed.

Lemma palette_Permutation im :
  palette arrange im ≡ₚ (PILImage.histogram (PILImage.getdata im)).*2.
Proof. unfold palette. by rewrite sort_by_count_Permutation, arrange_perm. Qed.

(** The palette holds each color of the bitmap once. *)
Lemma palette_NoDup im : NoDup (palette arrange im).
Proof. rewrite palette_Permutation. apply tally_histogram. Qed.

Lemma palette_elem_of im c : c ∈ palette arrange im ↔ c ∈ PILImage.getdata im.
Proof. rewrite palette_Permutation. apply tally_histogram. Qed.

Lemma palette_length im :
  Z.of_nat (length (palette arrange im)) = distinct_colors im.
Proof.
  by rewrite palette_Permutation, length_fmap, histogram_length.
Qed.

Lemma sorted_counts im n c :
  (n, c) ∈ sort_by_count (arrange (PILImage.histogram (PILImage.getdata im))) →
  n = occurrences c (PILImage.getdata im).
Proof.
  rewrite sort_by_count_Permutation, arrange_perm. apply tally_histogram.
Qed.

(** The palette is in descending order of occurrence count. *)
Lemma palette_sorted im :
  StronglySorted
    (λ c c', occurrences c' (PILImage.getdata im) ≤
             occurrences c (PILImage.getdata im))
    (palette arrange im).
Proof.
  unfold palette.
  eapply StronglySorted_fmap_impl; [|apply sort_by_count_sorted].
  intros [n c] [n' c'] Hc Hc' Hle. unfold by_count in Hle. simpl in *.
  by rewrite <- (sorted_counts im n c), <- (sorted_counts im n' c').
Qed.

(** Colors that occur equally often stand in the palette in the order
    in which Pillow listed them. *)
Lemma palette_stable im n :
  filter (λ c, occurrences c (PILImage.getdata im) = n) (palette arrange im) =
  filter (λ c, occurrences c (PILImage.getdata im) = n)
         (arrange (PILImage.histogram (PILImage.getdata im))).*2.
Proof.
  unfold palette.
  rewrite !(filter_fmap_ext snd (λ a : Z * PILImage.pixel, a.1 = n)
              (λ c, occurrences c (PILImage.getdata im) = n)).
  - by rewrite sort_by_count_stable.
  - intros [m c] Hc. simpl. rewrite arrange_perm in Hc.
    by rewrite (proj2 (proj2 (tally_histogram (PILImage.getdata im))) m c).
  - intros [m c] Hc. simpl. by rewrite (sorted_counts im m c).
Qed.

(** On the palette branch [flatten] returns the six entries, "location"
    among them; "colors" is the palette in hex, and "pixels" has for
    each pixel, in the order of [getdata], the position of its color in
    the palette. *)
Lemma flatten_palette_pixels self :
  let im := Image.image self in
  distinct_colors im ≤ 256 →
  ∃ pixels,
    Image.flatten_palette arrange self =
    Ok [("type", Str "image"); ("width", Int (PILImage.size im).1);
        ("height", Int (PILImage.size im).2);
        ("colors", List (Image.hex_of (palette arrange im)));
        ("pixels", List ((λ i, Int i) <$> pixels));
        ("location",
         Dict (flatten_attr (ContentPiece.location (Image.base self))))] ∧
    Forall2 (λ p i, 0 ≤ i ∧ palette arrange im !! Z.to_nat i = Some p)
            (PILImage.getdata im) pixels.
Proof.
  intros im Hn. unfold Image.flatten_palette. fold im.
  destruct (PILImage.size im) as [width height] eqn:Hsize.
  rewrite getcolors_few by done. cbn [list_of mbind result_bind].
  fold (palette arrange im).
  destruct (for_each_Forall2 (λ pixel, index pixel (palette arrange im))
              (λ p i, 0 ≤ i ∧ palette arrange im !! Z.to_nat i = Some p)
              (PILImage.getdata im)) as (pixels & -> & Hpixels).
  { intros p Hp. apply palette_elem_of in Hp.
    destruct (index_elem_of p _ Hp) as (i & -> & Hi).
    exists (Z.of_nat i). rewrite Nat2Z.id. split; [done|]. split; [lia|done]. }
  exists pixels. by split.
Qed.

(** With at most 256 distinct colors [flatten] returns a dict. *)
Lemma Image_flatten_returns self :
  distinct_colors (Image.image self) ≤ 256 →
  ∃ d, Image.flatten arrange self = Ok d.
Proof.
  intros Hn. rewrite Image_flatten_few_colors by done. case_bool_decide.
  - destruct (flatten_palette_pixels self Hn) as (pixels & -> & _). by eexists.
  - unfold Image.flatten_raw. destruct (PILImage.size _). by eexists.
Qed.

(** A bitmap of one color takes the palette branch, with that color as
    the palette and 0 for every pixel. *)
Lemma Image_flatten_one_color self :
  let im := Image.image self in
  distinct_colors im = 1 →
  ∃ c,
    Forall (c =.) (PILImage.getdata im) ∧
    Image.flatten arrange self =
    Ok [("type", Str "image"); ("width", Int (PILImage.size im).1);
        ("height", Int (PILImage.size im).2);
        ("colors", List (Image.hex_of [c]));
        ("pixels", List (replicate (length (PILImage.getdata im)) (Int 0)));
        ("location",
         Dict (flatten_attr (ContentPiece.location (Image.base self))))].
Proof.
  intros im Hone. subst im.
  rewrite Image_flatten_few_colors by lia.
  rewrite bool_decide_eq_true_2 by (left; lia).
  destruct (flatten_palette_pixels self) as (pixels & -> & Hpixels); [lia|].
  cbv zeta in Hpixels.
  pose proof (palette_length (Image.image self)) as Hlen. rewrite Hone in Hlen.
  pose proof (palette_elem_of (Image.image self)) as Hin.
  destruct (palette arrange (Image.image self)) as [|c [|? ?]];
    simpl in Hlen; try lia.
  exists c. split.
  - apply Forall_forall. intros p Hp. apply Hin in Hp.
    by apply list_elem_of_singleton in Hp.
  - assert ((λ i, Int i) <$> pixels =
            replicate (length (PILImage.getdata (Image.image self))) (Int 0))
      as ->; [|done].
    clear Hin Hlen.
    induction Hpixels as [|p i data pixels [Hi Hp] _ IH]; csimpl; [done|].
    rewrite IH. do 3 f_equal.
    destruct (Z.to_nat i) eqn:E; [lia|done].
Qed.

(** A frame whose images have at most 256 distinct colors each
    flattens to a dict, and so does a matrix content of such frames. *)
Lemma Frame_flatten_returns f :
  Forall few_colors (Frame.elements f) → ∃ d, Frame.flatten arrange f = Ok d.
Proof.
  intros Hf. unfold Frame.flatten.
  destruct (for_each_Forall2 (Frame.flatten_element arrange) (λ _ _, True)
              (Frame.elements f)) as (vs & -> & _); [|by eexists].
  intros e He. eapply Forall_forall in Hf; [|done].
  unfold Frame.flatten_element, few_colors in *.
  destruct (state e); try by eexists.
  destruct (Image_flatten_returns p Hf) as [d ->]. by eexists.
Qed.

Lemma MatrixContent_flatten_returns mc :
  Forall (λ f, Forall few_colors (Frame.elements (state f)))
         (MatrixContent.frames mc) →
  ∃ d, MatrixContent.flatten arrange mc = Ok d.
Proof.
  intros Hmc. unfold MatrixContent.flatten.
  destruct (for_each_Forall2
              (λ f, Dict <$> Frame.flatten arrange (state f)) (λ _ _, True)
              (MatrixContent.frames mc)) as (vs & -> & _); [|by eexists].
  intros f Hf. eapply Forall_forall in Hmc; [|done].
  destruct (Frame_flatten_returns (state f) Hmc) as [d ->]. by eexists.
Qed.

End image_flatten.

(** On the raw branch [flatten] returns exactly the keys "type",
    "width", "height" and "pixels", and "pixels" has one string for
    each pixel, in the order of [getdata]. *)
Lemma flatten_raw_keys self :
  let im := Image.image self in
  ∃ pixels,
    Image.flatten_raw self =
    Ok [("type", Str "image"); ("width", Int (PILImage.size im).1);
        ("height", Int (PILImage.size im).2); ("pixels", List pixels)] ∧
    Forall2 (λ p s, s = Str (Color.hex (Color.init p.1.1 p.1.2 p.2)))
            (PILImage.getdata im) pixels ∧
    (PILImage.valid im →
     Z.of_nat (length pixels) = (PILImage.size im).1 * (PILImage.size im).2).
Proof.
  intros im. exists (Image.hex_of (PILImage.getdata im)).
  unfold Image.flatten_raw. fold im. destruct (PILImage.size im) eqn:E.
  split; [done|]. split.
  - unfold Image.hex_of. apply Forall2_fmap_r, Forall_Forall2_diag.
    by apply Forall_forall.
  - intros (_ & _ & Hlen & _). unfold Image.hex_of. rewrite length_fmap.
    by rewrite Hlen, E.
Qed.

(** The example of the specification: a 2 by 2 bitmap of the one
    color (10,20,30) flattens on the palette branch to the palette
    "#0a141e" and the pixels 0, 0, 0, 0, whatever Pillow's order. *)
Lemma Image_flatten_example arrange :
  (∀ h, arrange h ≡ₚ h) →
  Image.flatten arrange (Image.init uniform_image None) =
  Ok [("type", Str "image"); ("width", Int 2); ("height", Int 2);
      ("colors", List [Str "#0a141e"]);
      ("pixels", List [Int 0; Int 0; Int 0; Int 0]);
      ("location", Dict [("x", Int 0); ("y", Int 0)])].
Proof.
  intros Hperm.
  pose proof (Image_flatten_one_color arrange Hperm
                (Image.init uniform_image None)) as Hone.
  destruct Hone as (c & Hc & ->); [by vm_compute|].

  apply Forall_cons in Hc as [-> _]. done.
Qed.

(** *** Concrete bitmaps *)

Lemma ramp_bands n :
  Z.of_nat n ≤ 65536 →
  Forall (λ p : PILImage.pixel,
            0 ≤ p.1.1 ≤ 255 ∧ 0 ≤ p.1.2 ≤ 255 ∧ 0 ≤ p.2 ≤ 255) (ramp n).
Proof.
  intros Hn. unfold ramp. apply Forall_fmap, Forall_seq. intros i Hi. simpl.
  pose proof (Z.mod_pos_bound (Z.of_nat i) 256).
  assert (0 ≤ Z.of_nat i `div` 256) by (apply Z.div_pos; lia).
  assert (Z.of_nat i `div` 256 < 256) by (apply Z.div_lt_upper_bound; lia).
  lia.
Qed.

(** The bitmaps built from [ramp] are valid "RGB" images. *)
Lemma banded_image_valid : PILImage.valid banded_image.
Proof.
  split; [done|]. split; [done|]. split; [by vm_compute|].
  unfold banded_image. cbn [PILImage.getdata].
  rewrite !Forall_app. repeat split; by apply ramp_bands.
Qed.

Lemma strip_image_valid : PILImage.valid strip_image.
Proof.
  split; [done|]. split; [done|]. split; [by vm_compute|].
  by apply ramp_bands.
Qed.

Lemma tile_image_valid : PILImage.valid tile_image.
Proof.
  split; [done|]. split; [done|]. split; [by vm_compute|].
  by apply ramp_bands.
Qed.

(** C1, at an input where the code departs from it: [banded_image] is
    a valid 300 by 3 bitmap with 300 distinct colors, fewer than half
    of its 900 pixels, so the claim puts it on the palette path; but
    [getcolors] returns [None] for it and [flatten] raises TypeError,
    in whatever order Pillow lists colors. *)
Theorem Image_flatten_banded arrange :
  PILImage.valid banded_image ∧
  distinct_colors banded_image = 300 ∧
  2 * distinct_colors banded_image <
    (PILImage.size banded_image).1 * (PILImage.size banded_image).2 ∧
  Image.flatten arrange (Image.init banded_image None) = Raise TypeError.
Proof.
  split; [|split; [|split]].
  - apply banded_image_valid.
  - by vm_compute.
  - by vm_compute.
  - by vm_compute.
Qed.

(** C2, at an input where the code departs from it: [strip_image] is a
    valid 300 by 1 bitmap with 300 distinct colors, at least 10 and at
    least half of its 300 pixels, so the claim puts it on the raw path;
    but [getcolors] returns [None] for it and [flatten] raises
    TypeError, in whatever order Pillow lists colors. *)
Theorem Image_flatten_strip arrange :
  PILImage.valid strip_image ∧
  10 ≤ distinct_colors strip_image ∧
  (PILImage.size strip_image).1 * (PILImage.size strip_image).2 ≤
    2 * distinct_colors strip_image ∧
  Image.flatten arrange (Image.init strip_image None) = Raise TypeError.
Proof.
  split; [|split; [|split]].
  - apply strip_image_valid.
  - by vm_compute.
  - by vm_compute.
  - by vm_compute.
Qed.

(** C9, at an input where the code departs from it: [tile_image] is a
    valid 20 by 15 bitmap; flattening the image raises TypeError, and
    so does flattening the frame and the matrix content that hold it. *)
Theorem MatrixContent_flatten_tile arrange :
  PILImage.valid tile_image ∧
  Image.flatten arrange (Image.init tile_image None) = Raise TypeError ∧
  Forall (λ f, Frame.flatten arrange (state f) = Raise TypeError)
         (MatrixContent.frames tile_content) ∧
  MatrixContent.flatten arrange tile_content = Raise TypeError.
Proof.
  split; [|split; [|split]].
  - apply tile_image_valid.
  - by vm_compute.
  - constructor; [by vm_compute|constructor].
  - by vm_compute.
Qed.

(** * Further properties *)

(** ** Hex codes *)

Lemma list_ascii_app s1 s2 :
  String.list_ascii_of_string (s1 +:+ s2) =
  String.list_ascii_of_string s1 ++ String.list_ascii_of_string s2.
Proof. induction s1 as [|a s1 IH]; simpl; [done|]. by rewrite IH. Qed.

Lemma format_02x_two_digits n :
  0 ≤ n ≤ 255 →
  ∃ a b, format_02x n = String a (String b EmptyString) ∧
         lower_hex_digit a ∧ lower_hex_digit b.
Proof.
  intros Hn.
  assert (forallb (λ n, two_hex_digits (format_02x n)) (seqZ 0 256) = true)
    as Hall by (by vm_compute).
  rewrite forallb_forall in Hall. specialize (Hall n).
  unfold two_hex_digits in Hall.
  destruct (format_02x n) as [|a [|b [|]]];
    try (by discriminate Hall; apply list_elem_of_In, elem_of_seqZ; lia).
  exists a, b. split; [done|].
  apply andb_prop in Hall as [Ha Hb];
    [|apply list_elem_of_In, elem_of_seqZ; lia].
  split; by eapply bool_decide_eq_true_1.
Qed.

Lemma format_02x_inj n m :
  0 ≤ n ≤ 255 → 0 ≤ m ≤ 255 → format_02x n = format_02x m → n = m.
Proof.
  intros Hn Hm Heq.
  assert (NoDup (format_02x <$> seqZ 0 256)) as Hnd
    by (apply (bool_decide_unpack _); by vm_compute).
  assert (∀ k, 0 ≤ k ≤ 255 →
            (format_02x <$> seqZ 0 256) !! Z.to_nat k = Some (format_02x k))
    as Hlook.
  { intros k Hk. rewrite list_lookup_fmap, lookup_seqZ_lt by lia.
    simpl. f_equal. f_equal. lia. }
  pose proof (Hlook n Hn) as Hln. pose proof (Hlook m Hm) as Hlm.
  rewrite Heq in Hln.
  pose proof (NoDup_lookup _ _ _ _ Hnd Hln Hlm). lia.
Qed.

(** X1: the hex code of a color with components in 0..255 is "#"
    followed by exactly six lowercase hexadecimal digits. *)
Theorem Color_hex_shape (c : Color.t) :
  Color.valid c →
  ∃ s, Color.hex c = String sharp s ∧
       String.length s = 6%nat ∧
       Forall lower_hex_digit (String.list_ascii_of_string s).
Proof.
  intros (Hr & Hg & Hb). unfold Color.hex.
  destruct (format_02x_two_digits _ Hr) as (r1 & r2 & -> & ? & ?).
  destruct (format_02x_two_digits _ Hg) as (g1 & g2 & -> & ? & ?).
  destruct (format_02x_two_digits _ Hb) as (b1 & b2 & -> & ? & ?).
  exists (String r1 (String r2 (String g1 (String g2 (String b1 (String b2 "")))))).
  split; [done|]. split; [done|]. simpl.
  repeat (apply Forall_cons; split; [done|]). by apply Forall_nil.
Qed.

Lemma Color_hex_shape_witness :
  ∃ s, Color.hex (Color.init 10 20 30) = String sharp s ∧
       String.length s = 6%nat ∧
       Forall lower_hex_digit (String.list_ascii_of_string s).
Proof. apply Color_hex_shape. unfold Color.valid. simpl. lia. Defined.

(** X2: two colors with components in 0..255 that have the same hex
    code are the same color. *)
Theorem Color_hex_inj (c1 c2 : Color.t) :
  Color.valid c1 → Color.valid c2 → Color.hex c1 = Color.hex c2 → c1 = c2.
Proof.
  intros (Hr1 & Hg1 & Hb1) (Hr2 & Hg2 & Hb2). unfold Color.hex.
  destruct c1 as [r1 g1 b1], c2 as [r2 g2 b2]. simpl in *. intros Heq.
  destruct (format_02x_two_digits _ Hr1) as (? & ? & Er1 & _).
  destruct (format_02x_two_digits _ Hg1) as (? & ? & Eg1 & _).
  destruct (format_02x_two_digits _ Hb1) as (? & ? & Eb1 & _).
  destruct (format_02x_two_digits _ Hr2) as (? & ? & Er2 & _).
  destruct (format_02x_two_digits _ Hg2) as (? & ? & Eg2 & _).
  destruct (format_02x_two_digits _ Hb2) as (? & ? & Eb2 & _).
  rewrite Er1, Eg1, Eb1, Er2, Eg2, Eb2 in Heq. simpl in Heq.
  injection Heq as -> -> -> -> -> ->.
  rewrite <- Er2 in Er1. rewrite <- Eg2 in Eg1. rewrite <- Eb2 in Eb1.
  f_equal; by apply format_02x_inj.
Qed.

Lemma Color_hex_inj_witness :
  Color.init 10 20 30 = Color.init 10 20 30.
Proof.
  apply Color_hex_inj; [unfold Color.valid; simpl; lia..|reflexivity].
Defined.

(** ** Content pieces *)

(** X3: for every choice of given or defaulted location and color, a
    [Pixel], a [Text], a [Circle] and a [Line] flatten to their type and
    own fields followed by "color" (the hex code of the given color, or
    of white), "x" and "y" (the given location, or (0,0)); [fill]
    defaults to true and a line's end to (0,0). *)
Theorem ContentPiece_flatten_merged
    (location end_location : option Location.t) (color : option Color.t)
    (text : string) (radius : Z) (fill : option bool) :
  let merged :=
    [("color", Str (Color.hex (default white color)));
     ("x", Int (Location.x (default origin location)));
     ("y", Int (Location.y (default origin location)))] in
  Pixel.flatten (Pixel.init location color) =
    ("type", Str "pixel") :: merged ∧
  Text.flatten (Text.init text location color) =
    ("type", Str "text") :: ("text", Str text) :: merged ∧
  Circle.flatten (Circle.init radius fill location color) =
    ("type", Str "circle") :: ("radius", Int radius) ::
    ("fill", Bool (default true fill)) :: merged ∧
  Line.flatten (Line.init location end_location color) =
    ("type", Str "line") ::
    ("end_location", Dict (Location.flatten (default origin end_location))) ::
    merged.
Proof.
  intros merged. subst merged. split; [|split; [|split]].
  - apply Pixel_flatten_init.
  - apply Text_flatten_init.
  - apply Circle_flatten_init.
  - apply Line_flatten_init.
Qed.

(** X4: what a [Rectangle] flattens to, for every width, height, fill,
    location and color.  Given both a location and a color it has "x",
    "y" and "color" from them; given neither, white and (0,0); given
    only a location, it has "x" 0 and "y" 0 whatever the location and no
    "color"; given only a color, it has "color" and neither "x" nor
    "y". *)
Theorem Rectangle_flatten_cases
    (width height : Z) (fill : option bool)
    (location : Location.t) (color : Color.t) :
  let own :=
    [("type", Str "rect"); ("width", Int width); ("height", Int height);
     ("fill", Bool (default true fill))] in
  Rectangle.flatten
    (Rectangle.init width height fill (Some location) (Some color)) =
    own ++ [("x", Int (Location.x location)); ("y", Int (Location.y location));
            ("color", Str (Color.hex color))] ∧
  Rectangle.flatten (Rectangle.init width height fill None None) =
    own ++ [("color", Str "#ffffff"); ("x", Int 0); ("y", Int 0)] ∧
  Rectangle.flatten (Rectangle.init width height fill (Some location) None) =
    own ++ [("x", Int 0); ("y", Int 0)] ∧
  Rectangle.flatten (Rectangle.init width height fill None (Some color)) =
    own ++ [("color", Str (Color.hex color))].
Proof. done. Qed.

(** X5: [Triangle.flatten] does not emit [fill]: two triangles that
    differ only in [fill] flatten to the same dict, which has no "fill"
    key. *)
Theorem Triangle_flatten_ignores_fill
    (p1 p2 p3 : Location.t) (fill fill' : option bool) (color : option Color.t) :
  Triangle.flatten (Triangle.init p1 p2 p3 fill color) =
  Triangle.flatten (Triangle.init p1 p2 p3 fill' color) ∧
  dict_get "fill" (Triangle.flatten (Triangle.init p1 p2 p3 fill color)) = None.
Proof. by destruct color. Qed.

(** ** Frames *)

Lemma list_remove_first {A} (eqb : A → A → bool) x l1 y l2 :
  eqb y x = true →
  (∀ z, z ∈ l1 → eqb z x = false) →
  list_remove eqb x (l1 ++ y :: l2) = Some (l1 ++ l2).
Proof.
  intros Hy. induction l1 as [|z l1 IH]; intros Hl1; simpl.
  - by rewrite Hy.
  - rewrite (Hl1 z) by (apply elem_of_cons; by left).
    rewrite IH; [done|]. intros z' Hz'. apply Hl1, elem_of_cons. by right.
Qed.

(** X6: when the element occurs in the frame, [remove] deletes its
    first occurrence and nothing else: the elements before and after it
    keep their order. *)
Theorem Frame_remove_first (f : Frame.t) (e x : object content_piece)
    (l1 l2 : list (object content_piece)) :
  Frame.elements f = l1 ++ x :: l2 →
  oid x = oid e →
  (∀ y, y ∈ l1 → oid y ≠ oid e) →
  Frame.remove f e =
    ({| Frame.elements := l1 ++ l2; Frame.duration := Frame.duration f |},
     Ok ()).
Proof.
  intros Hf Hx Hl1. unfold Frame.remove. rewrite Hf.
  rewrite list_remove_first; [done| |].
  - by apply Nat.eqb_eq.
  - intros y Hy. by apply same_object_false, Hl1.
Qed.

Lemma Frame_remove_first_witness :
  Frame.remove frame_ab pixel_b =
    ({| Frame.elements := [pixel_a] ++ [];
        Frame.duration := Frame.duration frame_ab |}, Ok ()).
Proof.
  apply (Frame_remove_first frame_ab pixel_b pixel_b [pixel_a] []).
  - reflexivity.
  - reflexivity.
  - intros y Hy. apply list_elem_of_singleton in Hy as ->. simpl. lia.
Defined.

(** X7: when the element already occurs in the frame, [add] followed
    by [remove] moves it to the end: the first occurrence is deleted
    and the added one stays. *)
Theorem Frame_add_remove_moves (f : Frame.t) (e x : object content_piece)
    (l1 l2 : list (object content_piece)) :
  Frame.elements f = l1 ++ x :: l2 →
  oid x = oid e →
  (∀ y, y ∈ l1 → oid y ≠ oid e) →
  Frame.remove (Frame.add f e) e =
    ({| Frame.elements := l1 ++ l2 ++ [e];
        Frame.duration := Frame.duration f |}, Ok ()).
Proof.
  intros Hf Hx Hl1. unfold Frame.remove, Frame.add. simpl. rewrite Hf.
  rewrite <- (assoc_L (++)). simpl.
  rewrite list_remove_first; [done| |].
  - by apply Nat.eqb_eq.
  - intros y Hy. by apply same_object_false, Hl1.
Qed.

Lemma Frame_add_remove_moves_witness :
  Frame.remove (Frame.add frame_ab pixel_a) pixel_a =
    ({| Frame.elements := [] ++ [pixel_b] ++ [pixel_a];
        Frame.duration := Frame.duration frame_ab |}, Ok ()).
Proof.
  apply (Frame_add_remove_moves frame_ab pixel_a pixel_a [] [pixel_b]).
  - reflexivity.
  - reflexivity.
  - intros y Hy. by apply elem_of_nil in Hy.
Defined.

Lemma for_each_app {A B} (f : A → result B) l1 l2 :
  for_each f (l1 ++ l2) =
  bs1 ← for_each f l1; bs2 ← for_each f l2; Ok (bs1 ++ bs2).
Proof.
  induction l1 as [|a l1 IH]; simpl.
  - by destruct (for_each f l2).
  - destruct (f a) as [b|]; simpl; [|done]. rewrite IH.
    destruct (for_each f l1); simpl; [|done]. by destruct (for_each f l2).
Qed.

(** The comprehension raises [e] when some item raises [e] and every
    other item returns or raises [e] too. *)
Lemma for_each_raise {A B} (f : A → result B) e l :
  (∀ a, a ∈ l → (∃ b, f a = Ok b) ∨ f a = Raise e) →
  Exists (λ a, f a = Raise e) l →
  for_each f l = Raise e.
Proof.
  induction l as [|a l IH]; intros Hl Hex; [by apply Exists_nil in Hex|].
  simpl. destruct (Hl a) as [[b Hb]|Ha]; [apply elem_of_cons; by left| |];
    [|by rewrite Ha].
  rewrite Hb. simpl. apply Exists_cons in Hex as [Ha|Hex]; [congruence|].
  rewrite IH; [done| |done]. intros a' Ha'. apply Hl, elem_of_cons. by right.
Qed.

Lemma for_each_returns {A B} (f : A → result B) l :
  (∀ a, a ∈ l → ∃ b, f a = Ok b) →
  ∃ bs, for_each f l = Ok bs ∧ Forall2 (λ a b, f a = Ok b) l bs.
Proof.
  intros Hl. apply for_each_Forall2. intros a Ha.
  destruct (Hl a Ha) as [b Hb]. by exists b.
Qed.

(** X8: [flatten] after [add]: when the frame flattens and the new
    element flattens, the frame with the element added flattens to the
    same dict with the element's value appended to "elements". *)
Theorem Frame_flatten_add arrange (f : Frame.t) (e : object content_piece)
    (d : dict) (v : value) :
  Frame.flatten arrange f = Ok d →
  Frame.flatten_element arrange e = Ok v →
  ∃ vs,
    d = [("type", Str "frame"); ("duration", Num (Frame.duration f));
         ("elements", List vs)] ∧
    Frame.flatten arrange (Frame.add f e) =
    Ok [("type", Str "frame"); ("duration", Num (Frame.duration f));
        ("elements", List (vs ++ [v]))].
Proof.
  unfold Frame.flatten, Frame.add. simpl. intros Hf He.
  rewrite for_each_app. simpl. rewrite He.
  destruct (for_each (Frame.flatten_element arrange) (Frame.elements f))
    as [vs|]; simpl in *; [|done].
  injection Hf as <-. by exists vs.
Qed.

Lemma Frame_flatten_add_witness :
  ∃ vs,
    [("type", Str "frame"); ("duration", Int 0);
     ("elements", List [Dict (Pixel.flatten (Pixel.init (Some (Location.init 0 0)) None));
                        Dict (Pixel.flatten (Pixel.init (Some (Location.init 1 0)) None))])] =
    [("type", Str "frame"); ("duration", Num (Frame.duration frame_ab));
     ("elements", List vs)] ∧
    Frame.flatten id (Frame.add frame_ab pixel_c) =
    Ok [("type", Str "frame"); ("duration", Num (Frame.duration frame_ab));
        ("elements",
         List (vs ++ [Dict (Pixel.flatten (Pixel.init (Some (Location.init 2 0)) None))]))].
Proof. apply (Frame_flatten_add id frame_ab pixel_c); reflexivity. Defined.

Lemma Forall_or_Exists {A} (P Q : A → Prop) l :
  (∀ x, P x ∨ Q x) → Forall P l ∨ Exists Q l.
Proof.
  intros HPQ. induction l as [|x l [IH|IH]].
  - left. constructor.
  - destruct (HPQ x); [left; by constructor|right; by constructor].
  - right. by constructor.
Qed.

Lemma few_or_many_colors e : few_colors e ∨ many_colors e.
Proof. unfold few_colors, many_colors. destruct (state e); try by left. lia. Qed.

Section flatten_outcome.
Variable arrange : list (Z * PILImage.pixel) → list (Z * PILImage.pixel).
Hypothesis arrange_perm : ∀ h, arrange h ≡ₚ h.

Lemma flatten_element_few e :
  few_colors e → ∃ v, Frame.flatten_element arrange e = Ok v.
Proof.
  unfold Frame.flatten_element, few_colors. intros He.
  destruct (state e); try by eexists.
  destruct (Image_flatten_returns arrange arrange_perm p He) as [d ->].
  by eexists.
Qed.

Lemma flatten_element_many e :
  many_colors e → Frame.flatten_element arrange e = Raise TypeError.
Proof.
  unfold Frame.flatten_element, many_colors. intros He.
  destruct (state e); try done. by rewrite Image_flatten_many_colors.
Qed.

Lemma frame_flatten_few f :
  Forall few_colors (Frame.elements f) →
  ∃ vs,
    Frame.flatten arrange f =
    Ok [("type", Str "frame"); ("duration", Num (Frame.duration f));
        ("elements", List vs)] ∧
    Forall2 (λ e v, Frame.flatten_element arrange e = Ok v)
            (Frame.elements f) vs.
Proof.
  intros Hf. unfold Frame.flatten.
  destruct (for_each_returns (Frame.flatten_element arrange) (Frame.elements f))
    as (vs & -> & Hvs); [|by exists vs].
  intros e He. apply flatten_element_few. by eapply Forall_forall in Hf.
Qed.

Lemma frame_flatten_many f :
  Exists many_colors (Frame.elements f) →
  Frame.flatten arrange f = Raise TypeError.
Proof.
  intros Hf. unfold Frame.flatten. rewrite (for_each_raise _ TypeError); [done| |].
  - intros e _. destruct (few_or_many_colors e) as [He|He].
    + left. by apply flatten_element_few.
    + right. by apply flatten_element_many.
  - eapply Exists_impl; [exact Hf|]. intros e He. by apply flatten_element_many.
Qed.

End flatten_outcome.

(** X9: [Frame.flatten] returns a dict when every image among the
    elements has at most 256 distinct colors, with one value per
    element, in the elements' order; it raises TypeError when some
    element is an image of more than 256 distinct colors. *)
Theorem Frame_flatten_outcome arrange (f : Frame.t) :
  (∀ h, arrange h ≡ₚ h) →
  (Forall few_colors (Frame.elements f) →
   ∃ vs,
     Frame.flatten arrange f =
     Ok [("type", Str "frame"); ("duration", Num (Frame.duration f));
         ("elements", List vs)] ∧
     Forall2 (λ e v, Frame.flatten_element arrange e = Ok v)
             (Frame.elements f) vs) ∧
  (Exists many_colors (Frame.elements f) →
   Frame.flatten arrange f = Raise TypeError).
Proof.
  intros Hperm. split.
  - by apply frame_flatten_few.
  - by apply frame_flatten_many.
Qed.

Lemma Frame_flatten_outcome_witness :
  (∃ vs,
     Frame.flatten id frame_ab =
     Ok [("type", Str "frame"); ("duration", Num (Frame.duration frame_ab));
         ("elements", List vs)] ∧
     Forall2 (λ e v, Frame.flatten_element id e = Ok v)
             (Frame.elements frame_ab) vs) ∧
  Frame.flatten id
    (Frame.add frame_ab (Object 4%nat (AnImage (Image.init strip_image None)))) =
  Raise TypeError.
Proof.
  split.
  - apply (Frame_flatten_outcome id frame_ab); [done|].
    by repeat constructor.
  - apply (Frame_flatten_outcome id); [done|].
    apply Exists_cons_tl, Exists_cons_tl, Exists_cons_hd. by vm_compute.
Defined.

(** X10: [MatrixContent.flatten] returns a dict with one value per
    frame when every image in every frame has at most 256 distinct
    colors; it raises TypeError when some frame holds an image of more
    than 256 distinct colors. *)
Theorem MatrixContent_flatten_outcome arrange (mc : MatrixContent.t) :
  (∀ h, arrange h ≡ₚ h) →
  (Forall (λ f, Forall few_colors (Frame.elements (state f)))
          (MatrixContent.frames mc) →
   ∃ vs,
     MatrixContent.flatten arrange mc =
     Ok [("type", Str "matrix"); ("frames", List vs)] ∧
     Forall2 (λ f v, Dict <$> Frame.flatten arrange (state f) = Ok v)
             (MatrixContent.frames mc) vs) ∧
  (Exists (λ f, Exists many_colors (Frame.elements (state f)))
          (MatrixContent.frames mc) →
   MatrixContent.flatten arrange mc = Raise TypeError).
Proof.
  intros Hperm. unfold MatrixContent.flatten. split.
  - intros Hmc.
    destruct (for_each_returns
                (λ f, Dict <$> Frame.flatten arrange (state f))
                (MatrixContent.frames mc)) as (vs & -> & Hvs); [|by exists vs].
    intros f Hf. eapply Forall_forall in Hmc; [|done].
    destruct (frame_flatten_few arrange Hperm (state f) Hmc) as (? & -> & _).
    by eexists.
  - intros Hmc. rewrite (for_each_raise _ TypeError); [done| |].
    + intros f _.
      destruct (Forall_or_Exists few_colors many_colors
                  (Frame.elements (state f)) few_or_many_colors) as [Hf|Hf].
      * left. destruct (frame_flatten_few arrange Hperm _ Hf) as (? & -> & _).
        by eexists.
      * right. by rewrite frame_flatten_many.
    + eapply Exists_impl; [exact Hmc|]. intros f Hf. simpl.
      by rewrite frame_flatten_many.
Qed.

Lemma MatrixContent_flatten_outcome_witness :
  (∃ vs,
     MatrixContent.flatten id pixel_content =
     Ok [("type", Str "matrix"); ("frames", List vs)] ∧
     Forall2 (λ f v, Dict <$> Frame.flatten id (state f) = Ok v)
             (MatrixContent.frames pixel_content) vs) ∧
  MatrixContent.flatten id tile_content = Raise TypeError.
Proof.
  split.
  - apply (MatrixContent_flatten_outcome id pixel_content); [done|].
    by repeat constructor.
  - apply (MatrixContent_flatten_outcome id tile_content); [done|].
    apply Exists_cons_hd, Exists_cons_hd. by vm_compute.
Defined.

(** ** Matrix contents *)

Lemma new_frames_init next N :
  new_frames N (MatrixContent.init next).1 (MatrixContent.init next).2 =
  (MatrixContent.MatrixContent (fresh_frames next (S N)) (Z.of_nat N),
   (next + S N)%nat).
Proof.
  pose proof (new_frames_fresh N next 0) as H.
  replace (next + 1)%nat with (S next) in H by lia. exact H.
Qed.

Lemma for_each_const {A B} (f : A → result B) b l :
  (∀ a, a ∈ l → f a = Ok b) → for_each f l = Ok (replicate (length l) b).
Proof.
  induction l as [|a l IH]; intros Hl; simpl; [done|].
  rewrite (Hl a) by (apply elem_of_cons; by left). simpl.
  rewrite IH; [done|]. intros a' Ha'. apply Hl, elem_of_cons. by right.
Qed.

(** X11: after [N] calls of [new_frame] on a new matrix content,
    [frame(i)] for [0 <= i <= N] returns the frame created [i]-th (the
    constructor's being the 0-th), and so does [frame(i - (N + 1))],
    the same position counted from the end. *)
Theorem MatrixContent_frame_nth (next N i : nat) :
  (i ≤ N)%nat →
  let mc :=
    (new_frames N (MatrixContent.init next).1 (MatrixContent.init next).2).1 in
  MatrixContent.frame mc (Some (Z.of_nat i)) =
    Ok (Object (next + i)%nat empty_frame) ∧
  MatrixContent.frame mc (Some (Z.of_nat i - Z.of_nat (S N))) =
    Ok (Object (next + i)%nat empty_frame).
Proof.
  intros Hi mc. subst mc. rewrite new_frames_init. simpl fst.
  unfold MatrixContent.frame. simpl MatrixContent.frames. split.
  - destruct (getitem_inside (fresh_frames next (S N)) (Z.of_nat i))
      as (f & Hf & ->); [rewrite fresh_frames_length; lia|].
    rewrite Nat2Z.id, fresh_frames_lookup in Hf by lia. by injection Hf as <-.
  - destruct (getitem_from_end (fresh_frames next (S N))
                (Z.of_nat i - Z.of_nat (S N)))
      as (f & Hf & ->); [rewrite fresh_frames_length; lia|].
    rewrite fresh_frames_length in Hf.
    replace (Z.of_nat (S N) + (Z.of_nat i - Z.of_nat (S N))) with (Z.of_nat i)
      in Hf by lia.
    rewrite Nat2Z.id, fresh_frames_lookup in Hf by lia. by injection Hf as <-.
Qed.

Lemma MatrixContent_frame_nth_witness :
  let mc :=
    (new_frames 2 (MatrixContent.init 0).1 (MatrixContent.init 0).2).1 in
  MatrixContent.frame mc (Some (Z.of_nat 1)) =
    Ok (Object (0 + 1)%nat empty_frame) ∧
  MatrixContent.frame mc (Some (Z.of_nat 1 - Z.of_nat 3)) =
    Ok (Object (0 + 1)%nat empty_frame).
Proof. apply (MatrixContent_frame_nth 0 2 1). lia. Defined.

(** X12: a new matrix content on which [new_frame] was called [N]
    times flattens to "type" "matrix" and "frames" a list of [N + 1]
    empty frames, each with duration 0 and no elements. *)
Theorem MatrixContent_flatten_new_frames arrange (next N : nat) :
  MatrixContent.flatten arrange
    (new_frames N (MatrixContent.init next).1 (MatrixContent.init next).2).1 =
  Ok [("type", Str "matrix");
      ("frames", List (replicate (S N) empty_frame_dict))].
Proof.
  rewrite new_frames_init. simpl fst. unfold MatrixContent.flatten.
  simpl MatrixContent.frames.
  rewrite (for_each_const _ empty_frame_dict).
  - by rewrite fresh_frames_length.
  - intros f Hf. unfold fresh_frames in Hf.
    apply list_elem_of_fmap in Hf as (i & -> & _). done.
Qed.

(** ** Images *)

(** X13: for every bitmap with more than 256 distinct colors
    [Image.flatten] raises TypeError, whatever the size of the bitmap
    and the order in which Pillow lists colors. *)
Theorem Image_flatten_above_256 arrange (self : Image.t) :
  256 < distinct_colors (Image.image self) →
  Image.flatten arrange self = Raise TypeError.
Proof. apply Image_flatten_many_colors. Qed.

Lemma Image_flatten_above_256_witness :
  Image.flatten id (Image.init strip_image None) = Raise TypeError.
Proof. apply Image_flatten_above_256. by vm_compute. Defined.

(** X14: for a bitmap with at most 256 distinct colors [Image.flatten]
    takes the palette branch when the number of distinct colors is
    below 10 or below half of [width * height], and the raw branch
    otherwise. *)
Theorem Image_flatten_branch arrange (self : Image.t) :
  (∀ h, arrange h ≡ₚ h) →
  distinct_colors (Image.image self) ≤ 256 →
  Image.flatten arrange self =
  if bool_decide
       (distinct_colors (Image.image self) < 10 ∨
        2 * distinct_colors (Image.image self) <
          (PILImage.size (Image.image self)).1 *
          (PILImage.size (Image.image self)).2)
  then Image.flatten_palette arrange self
  else Image.flatten_raw self.
Proof. intros Hperm. by apply Image_flatten_few_colors. Qed.

Lemma Image_flatten_branch_witness :
  Image.flatten id (Image.init patch_image None) =
  if bool_decide
       (distinct_colors (Image.image (Image.init patch_image None)) < 10 ∨
        2 * distinct_colors (Image.image (Image.init patch_image None)) <
          (PILImage.size (Image.image (Image.init patch_image None))).1 *
          (PILImage.size (Image.image (Image.init patch_image None))).2)
  then Image.flatten_palette id (Image.init patch_image None)
  else Image.flatten_raw (Image.init patch_image None).
Proof. apply Image_flatten_branch; [done|by vm_compute]. Defined.

(** X15: on the palette branch [Image.flatten] returns "type",
    "width", "height", "colors", "pixels" and "location"; "colors" is
    the palette in hex, and "pixels" has one index per pixel, in the
    order of the pixels, each within the palette and naming the
    pixel's own color: the palette and the indices give the bitmap
    back. *)
Theorem Image_flatten_palette_decodes arrange (self : Image.t) :
  (∀ h, arrange h ≡ₚ h) →
  distinct_colors (Image.image self) ≤ 256 →
  distinct_colors (Image.image self) < 10 ∨
  2 * distinct_colors (Image.image self) <
    (PILImage.size (Image.image self)).1 * (PILImage.size (Image.image self)).2 →
  ∃ pixels,
    Image.flatten arrange self =
    Ok [("type", Str "image");
        ("width", Int (PILImage.size (Image.image self)).1);
        ("height", Int (PILImage.size (Image.image self)).2);
        ("colors", List (Image.hex_of (palette arrange (Image.image self))));
        ("pixels", List ((λ i, Int i) <$> pixels));
        ("location",
         Dict (flatten_attr (ContentPiece.location (Image.base self))))] ∧
    Forall2
      (λ p i, 0 ≤ i < Z.of_nat (length (palette arrange (Image.image self))) ∧
              palette arrange (Image.image self) !! Z.to_nat i = Some p)
      (PILImage.getdata (Image.image self)) pixels.
Proof.
  intros Hperm Hfew Hbranch.
  rewrite Image_flatten_few_colors, bool_decide_eq_true_2 by done.
  destruct (flatten_palette_pixels arrange Hperm self Hfew)
    as (pixels & -> & Hpixels).
  exists pixels. split; [done|].
  eapply Forall2_impl; [exact Hpixels|]. intros p i [Hi Hp]. split; [|done].
  apply lookup_lt_Some in Hp. lia.
Qed.

Lemma Image_flatten_palette_decodes_witness :
  ∃ pixels,
    Image.flatten id (Image.init mixed_image None) =
    Ok [("type", Str "image");
        ("width", Int (PILImage.size mixed_image).1);
        ("height", Int (PILImage.size mixed_image).2);
        ("colors", List (Image.hex_of (palette id mixed_image)));
        ("pixels", List ((λ i, Int i) <$> pixels));
        ("location",
         Dict (flatten_attr
                 (ContentPiece.location (Image.base (Image.init mixed_image None)))))] ∧
    Forall2
      (λ p i, 0 ≤ i < Z.of_nat (length (palette id mixed_image)) ∧
              palette id mixed_image !! Z.to_nat i = Some p)
      (PILImage.getdata mixed_image) pixels.
Proof.
  apply (Image_flatten_palette_decodes id (Image.init mixed_image None));
    [done|by vm_compute|left; by vm_compute].
Defined.

(** X16: the palette holds every color of the bitmap, each once, and
    nothing else. *)
Theorem palette_lists_colors arrange (im : PILImage.t) :
  (∀ h, arrange h ≡ₚ h) →
  NoDup (palette arrange im) ∧
  (∀ c, c ∈ palette arrange im ↔ c ∈ PILImage.getdata im) ∧
  Z.of_nat (length (palette arrange im)) = distinct_colors im.
Proof.
  intros Hperm. split; [|split].
  - by apply palette_NoDup.
  - intros c. by apply palette_elem_of.
  - by apply palette_length.
Qed.

Lemma palette_lists_colors_witness :
  NoDup (palette id mixed_image) ∧
  (∀ c, c ∈ palette id mixed_image ↔ c ∈ PILImage.getdata mixed_image) ∧
  Z.of_nat (length (palette id mixed_image)) = distinct_colors mixed_image.
Proof. by apply palette_lists_colors. Defined.

(** X17: the palette is in descending order of occurrence count: no
    color stands before one that occurs more often. *)
Theorem palette_descending arrange (im : PILImage.t) :
  (∀ h, arrange h ≡ₚ h) →
  StronglySorted
    (λ c c', occurrences c' (PILImage.getdata im) ≤
             occurrences c (PILImage.getdata im))
    (palette arrange im).
Proof. intros Hperm. by apply palette_sorted. Qed.

Lemma palette_descending_witness :
  StronglySorted
    (λ c c', occurrences c' (PILImage.getdata mixed_image) ≤
             occurrences c (PILImage.getdata mixed_image))
    (palette id mixed_image).
Proof. by apply palette_descending. Defined.

(** X18: the sort is stable: the colors of one occurrence count stand
    in the palette in the order in which Pillow listed them. *)
Theorem palette_keeps_order arrange (im : PILImage.t) (n : Z) :
  (∀ h, arrange h ≡ₚ h) →
  filter (λ c, occurrences c (PILImage.getdata im) = n) (palette arrange im) =
  filter (λ c, occurrences c (PILImage.getdata im) = n)
         (arrange (PILImage.histogram (PILImage.getdata im))).*2.
Proof. intros Hperm. by apply palette_stable. Qed.

Lemma palette_keeps_order_witness :
  filter (λ c, occurrences c (PILImage.getdata patch_image) = 1)
         (palette id patch_image) =
  filter (λ c, occurrences c (PILImage.getdata patch_image) = 1)
         (id (PILImage.histogram (PILImage.getdata patch_image))).*2.
Proof. by apply palette_keeps_order. Defined.

(** X19: a bitmap of exactly one distinct color flattens on the
    palette branch to a palette of that one color and the index 0 for
    every pixel, whatever its size. *)
Theorem Image_flatten_single_color arrange (self : Image.t) :
  (∀ h, arrange h ≡ₚ h) →
  distinct_colors (Image.image self) = 1 →
  ∃ c,
    Forall (c =.) (PILImage.getdata (Image.image self)) ∧
    Image.flatten arrange self =
    Ok [("type", Str "image");
        ("width", Int (PILImage.size (Image.image self)).1);
        ("height", Int (PILImage.size (Image.image self)).2);
        ("colors", List (Image.hex_of [c]));
        ("pixels",
         List (replicate (length (PILImage.getdata (Image.image self))) (Int 0)));
        ("location",
         Dict (flatten_attr (ContentPiece.location (Image.base self))))].
Proof. intros Hperm. by apply Image_flatten_one_color. Qed.

Lemma Image_flatten_single_color_witness :
  ∃ c,
    Forall (c =.) (PILImage.getdata uniform_image) ∧
    Image.flatten id (Image.init uniform_image None) =
    Ok [("type", Str "image");
        ("width", Int (PILImage.size uniform_image).1);
        ("height", Int (PILImage.size uniform_image).2);
        ("colors", List (Image.hex_of [c]));
        ("pixels",
         List (replicate (length (PILImage.getdata uniform_image)) (Int 0)));
        ("location",
         Dict (flatten_attr
                 (ContentPiece.location (Image.base (Image.init uniform_image None)))))].
Proof.
  apply (Image_flatten_single_color id (Image.init uniform_image None));
    [done|by vm_compute].
Defined.

(** X20: a bitmap without pixels flattens on the palette branch, to an
    empty palette and no indices. *)
Theorem Image_flatten_no_pixels arrange (self : Image.t) :
  (∀ h, arrange h ≡ₚ h) →
  PILImage.getdata (Image.image self) = [] →
  Image.flatten arrange self =
  Ok [("type", Str "image");
      ("width", Int (PILImage.size (Image.image self)).1);
      ("height", Int (PILImage.size (Image.image self)).2);
      ("colors", List []); ("pixels", List []);
      ("location",
       Dict (flatten_attr (ContentPiece.location (Image.base self))))].
Proof.
  intros Hperm Hdata.
  assert (distinct_colors (Image.image self) = 0) as Hzero
    by (unfold distinct_colors; by rewrite Hdata).
  rewrite Image_flatten_few_colors by (done || lia).
  rewrite bool_decide_eq_true_2 by (left; lia).
  destruct (flatten_palette_pixels arrange Hperm self)
    as (pixels & -> & Hpixels); [lia|].
  cbv zeta in Hpixels. rewrite Hdata in Hpixels.
  apply Forall2_nil_inv_l in Hpixels as ->.
  pose proof (palette_length arrange Hperm (Image.image self)) as Hlen.
  rewrite Hzero in Hlen.
  destruct (palette arrange (Image.image self)); [done|simpl in Hlen; lia].
Qed.

Lemma Image_flatten_no_pixels_witness :
  Image.flatten id (Image.init empty_image None) =
  Ok [("type", Str "image");
      ("width", Int (PILImage.size empty_image).1);
      ("height", Int (PILImage.size empty_image).2);
      ("colors", List []); ("pixels", List []);
      ("location",
       Dict (flatten_attr
               (ContentPiece.location (Image.base (Image.init empty_image None)))))].
Proof.
  apply (Image_flatten_no_pixels id (Image.init empty_image None));
    [done|reflexivity].
Defined.

(** X21: a bitmap with at least 10 and at most 256 distinct colors, at
    least half of [width * height], flattens to exactly "type",
    "width", "height" and "pixels", where "pixels" is the hex code of
    every pixel in the order of the pixels; the image's location is
    not in the result. *)
Theorem Image_flatten_raw_result arrange (self : Image.t) :
  (∀ h, arrange h ≡ₚ h) →
  10 ≤ distinct_colors (Image.image self) ≤ 256 →
  (PILImage.size (Image.image self)).1 * (PILImage.size (Image.image self)).2 ≤
    2 * distinct_colors (Image.image self) →
  Image.flatten arrange self =
  Ok [("type", Str "image");
      ("width", Int (PILImage.size (Image.image self)).1);
      ("height", Int (PILImage.size (Image.image self)).2);
      ("pixels", List (Image.hex_of (PILImage.getdata (Image.image self))))].
Proof.
  intros Hperm Hn Hhalf. rewrite Image_flatten_few_colors by (done || lia).
  rewrite bool_decide_eq_false_2 by lia.
  unfold Image.flatten_raw. by destruct (PILImage.size (Image.image self)).
Qed.

Lemma Image_flatten_raw_result_witness :
  Image.flatten id (Image.init patch_image (Some (Location.init 5 5))) =
  Ok [("type", Str "image");
      ("width", Int (PILImage.size patch_image).1);
      ("height", Int (PILImage.size patch_image).2);
      ("pixels", List (Image.hex_of (PILImage.getdata patch_image)))].
Proof.
  apply (Image_flatten_raw_result id
           (Image.init patch_image (Some (Location.init 5 5))));
    [done|by vm_compute|by vm_compute].
Defined.

(** X22: the raw encoding is only ever returned for small bitmaps:
    when [Image.flatten] returns a dict without "colors", the bitmap
    has at least 10 and at most 256 distinct colors and
    [width * height] is at most 512. *)
Theorem Image_flatten_raw_small arrange (self : Image.t) (d : dict) :
  (∀ h, arrange h ≡ₚ h) →
  Image.flatten arrange self = Ok d →
  dict_get "colors" d = None →
  10 ≤ distinct_colors (Image.image self) ≤ 256 ∧
  (PILImage.size (Image.image self)).1 * (PILImage.size (Image.image self)).2 ≤ 512.
Proof.
  intros Hperm Hflat Hraw.
  destruct (decide (distinct_colors (Image.image self) ≤ 256)) as [Hfew|Hmany].
  - rewrite Image_flatten_few_colors in Hflat by done.
    case_bool_decide as Hbranch.
    + destruct (flatten_palette_pixels arrange Hperm self Hfew)
        as (pixels & Hpal & _).
      rewrite Hpal in Hflat. injection Hflat as <-. done.
    + lia.
  - rewrite Image_flatten_many_colors in Hflat by lia. done.
Qed.

Lemma Image_flatten_raw_small_witness :
  10 ≤ distinct_colors (Image.image (Image.init patch_image None)) ≤ 256 ∧
  (PILImage.size (Image.image (Image.init patch_image None))).1 *
  (PILImage.size (Image.image (Image.init patch_image None))).2 ≤ 512.
Proof.
  apply (Image_flatten_raw_small id (Image.init patch_image None)
           [("type", Str "image"); ("width", Int 4); ("height", Int 3);
            ("pixels", List (Image.hex_of (PILImage.getdata patch_image)))]);
    [done|by vm_compute|reflexivity].
Defined.
